(** * The tracing abstraction service

    A shallow embedding of [pkg/infra/tracing/opentelemetry_tracing.go]:
    the settings parser, the provider construction, the installation of
    the package-level tracer, the shutdown task and the two span adapters
    (the attribute-based one and the legacy tag-based one).

    The file only glues third-party packages together.  Those packages
    are represented by small executable stand-ins, each introduced by a
    comment that names the Go package and the part of its documented
    behaviour that is kept.  Everything under the heading "The package"
    follows the Go source line by line. *)

From Stdlib Require Import ZArith Ascii String List Lia.
From stdpp Require Import base option list strings gmap pretty.

Local Open Scope string_scope.
Local Open Scope list_scope.
Local Open Scope Z_scope.

(** ** Go values shared by all packages *)

(** The [error] interface.  [None : option error] is Go's [nil]. *)
Inductive error : Type :=
| DeadlineExceeded              (* context.DeadlineExceeded *)
| Canceled                      (* context.Canceled *)
| errorString (msg : string).   (* errors.New / fmt.Errorf *)

#[global] Instance error_eq_dec : EqDecision error.
Proof. solve_decision. Defined.

(** ** Package [attribute] (go.opentelemetry.io/otel/attribute) *)

Module attribute.

(** [attribute.Value]: a typed value, or the zero value, whose type
    is [INVALID].  A float is kept as the 64 bits the Go struct stores;
    slices are left out. *)
Inductive Value : Type :=
| InvalidValue
| BoolValue (b : bool)
| Int64Value (i : Z)
| Float64Value (bits : Z)
| StringValue (s : string).

(** [type Key string] *)
Definition Key : Type := string.

(** [type KeyValue struct { Key Key; Value Value }] *)
Record KeyValue : Type := mkKeyValue { kvKey : Key; kvValue : Value }.

Definition String (k : Key) (v : string) : KeyValue := mkKeyValue k (StringValue v).
Definition Int (k : Key) (v : Z) : KeyValue := mkKeyValue k (Int64Value v).
Definition Bool (k : Key) (v : bool) : KeyValue := mkKeyValue k (BoolValue v).

(** [KeyValue.Valid]: the key is not empty and the value has a type. *)
Definition Valid (kv : KeyValue) : bool :=
  negb (bool_decide (kvKey kv = "")) &&
  match kvValue kv with
  | InvalidValue => false
  | _ => true
  end.

#[global] Instance Value_eq_dec : EqDecision Value.
Proof. solve_decision. Defined.
#[global] Instance KeyValue_eq_dec : EqDecision KeyValue.
Proof. solve_decision. Defined.

End attribute.

(** Go's empty interface [interface{}], restricted to the dynamic types
    that can reach a legacy tag: the dynamic type is part of the value,
    so a whole [KeyValue] is never equal to the [Value] inside it. *)
Inductive any : Type :=
| any_KeyValue (kv : attribute.KeyValue)
| any_Value (v : attribute.Value)
| any_string (s : string)
| any_int (i : Z)
| any_bool (b : bool).

#[global] Instance any_eq_dec : EqDecision any.
Proof. solve_decision. Defined.

(** ** Package [fmt] *)

Module fmt.
(** [fmt.Sprint] of one operand, for the operand types used here.  An
    [int] prints in decimal, a string prints as itself. *)
Definition Sprint_int (i : Z) : string := pretty i.
Definition Sprint_string (s : string) : string := s.
End fmt.

(** ** Package [time] *)

Module time.
(** [type Duration int64], counted in nanoseconds. *)
Definition Duration : Type := Z.
Definition Second : Duration := 1000000000.
End time.

(** ** Package [ini] (gopkg.in/ini.v1) and package [setting] *)

Module ini.

(** A loaded file maps section names to the raw values of their keys.
    The file is taken as loaded with the package's default options:
    names are case sensitive, child sections are delimited by a dot and
    no value mapper is installed. *)
Record File : Type := mkFile { sections : gmap string (gmap string string) }.

(** A [*Section] handle: the file it belongs to and its name. *)
Record Section : Type := mkSection { f : File; name : string }.

(** A [*Key] handle: the section it lives in, its name and the raw
    value it holds. *)
Record Key : Type := mkKey { s : Section; key_name : string; value : string }.

(** The empty name stands for the default section. *)
Definition section_name (n : string) : string :=
  if decide (n = "") then "DEFAULT" else n.

(** [File.GetSection]: the named section, or an error when the file
    has no section of that name. *)
Definition GetSection (fl : File) (n : string) : Section + error :=
  match sections fl !! section_name n with
  | Some _ => inl (mkSection fl (section_name n))
  | None => inr (errorString ("section '" ++ n ++ "' does not exist")%string)
  end.

(** The names a child section falls back to: what is left of its name
    when it is cut at a dot, the longest first. *)
Fixpoint cut_at_dots (before : string) (n : string) : list string :=
  match n with
  | EmptyString => []
  | String c rest =>
      let later := cut_at_dots (before ++ String c EmptyString)%string rest in
      if Ascii.eqb c "."%char then later ++ [before] else later
  end.

Definition ancestors (n : string) : list string := cut_at_dots "" n.

(** The first of the named sections that exists and has the key. *)
Fixpoint lookup_in (fl : File) (names : list string) (k : string) : option Key :=
  match names with
  | [] => None
  | n :: rest =>
      match sections fl !! section_name n with
      | Some ks =>
          match ks !! k with
          | Some v => Some (mkKey (mkSection fl (section_name n)) k v)
          | None => lookup_in fl rest k
          end
      | None => lookup_in fl rest k
      end
  end.

(** [Section.GetKey]: the key of the section itself or, when the
    section has none of that name, of the nearest ancestor section that
    has one; [None] is the error. *)
Definition GetKey (sec : Section) (k : string) : option Key :=
  lookup_in (f sec) (name sec :: ancestors (name sec)) k.

(** [Section.Key]: as [GetKey], or a key with the empty value in the
    section itself when there is none.  (The key is also added to the
    section; nothing here reads it again.) *)
Definition Key_ (sec : Section) (k : string) : Key :=
  match GetKey sec k with
  | Some key => key
  | None => mkKey sec k ""
  end.

(** The leftmost match of the pattern [%\(([^)]+)\)s]: the name
    between the parentheses. *)
Fixpoint until_rparen (v : string) : string * string :=
  match v with
  | EmptyString => (EmptyString, EmptyString)
  | String c rest =>
      if Ascii.eqb c ")"%char then (EmptyString, v)
      else let '(a, b) := until_rparen rest in (String c a, b)
  end.

Definition var_here (v : string) : option string :=
  match v with
  | String c1 (String c2 rest) =>
      if Ascii.eqb c1 "%"%char && Ascii.eqb c2 "("%char
      then match until_rparen rest with
           | (String a run, String c3 (String c4 _)) =>
               if Ascii.eqb c3 ")"%char && Ascii.eqb c4 "s"%char then Some (String a run) else None
           | _ => None
           end
      else None
  | _ => None
  end.

Fixpoint find_var (v : string) : option string :=
  match var_here v with
  | Some n => Some n
  | None => match v with
            | EmptyString => None
            | String _ rest => find_var rest
            end
  end.

(** [strings.Replace(v, old, new, -1)] for a non-empty [old]. *)
Fixpoint replace_from (old new : string) (skip : nat) (v : string) : string :=
  match v with
  | EmptyString => EmptyString
  | String c rest =>
      match skip with
      | S n => replace_from old new n rest
      | O =>
          if String.prefix old v
          then (new ++ replace_from old new (String.length old - 1) rest)%string
          else String c (replace_from old new 0 rest)
      end
  end.

Definition Replace (v old new : string) : string := replace_from old new 0 v.

Definition contains_percent (v : string) : bool :=
  existsb (λ c, Ascii.eqb c "%"%char) (list_ascii_of_string v).

(** Whether two handles are the same key. *)
Definition same_key (k1 k2 : Key) : bool :=
  bool_decide (name (s k1) = name (s k2) ∧ key_name k1 = key_name k2).

(** The loop of [Key.transformValue]: each round replaces the leftmost
    reference by the raw value of the key it names, looked up from the
    section of the key and, when that fails or finds the key itself, in
    the default section. *)
Fixpoint expand (rounds : nat) (k : Key) (v : string) : string :=
  match rounds with
  | O => v
  | S n =>
      match find_var v with
      | None => v
      | Some noption =>
          let in_default := lookup_in (f (s k)) [""] noption in
          let nk := match GetKey (s k) noption with
                    | Some nk => if same_key k nk then in_default else Some nk
                    | None => in_default
                    end in
          match nk with
          | Some nk => expand n k (Replace v ("%(" ++ noption ++ ")s")%string (value nk))
          | None => v
          end
      end
  end.

(** [Key.String]: the raw value, with its [%(name)s] references
    expanded, at most 99 rounds. *)
Definition String_ (k : Key) : string :=
  if contains_percent (value k) then expand 99 k (value k) else value k.

(** [parseBool]: the literals the package accepts. *)
Definition parseBool (str : string) : option bool :=
  if bool_decide (str ∈ ["1"; "t"; "T"; "true"; "TRUE"; "True"; "YES"; "yes";
                         "Yes"; "y"; "ON"; "on"; "On"])
  then Some true
  else if bool_decide (str ∈ ["0"; "f"; "F"; "false"; "FALSE"; "False"; "NO";
                              "no"; "No"; "n"; "OFF"; "off"; "Off"])
  then Some false
  else None.

(** [Key.MustBool(defaultVal)]: the parsed value of [Key.String], or
    [defaultVal] when that is not a boolean literal. *)
Definition MustBool (k : Key) (defaultVal : bool) : bool :=
  match parseBool (String_ k) with
  | Some b => b
  | None => defaultVal
  end.

End ini.

Module setting.
(** [setting.Cfg]: only the raw ini file is read by this package. *)
Record Cfg : Type := mkCfg { Raw : ini.File }.
End setting.

Module log.
(** [log.Logger]: a named logger; the lines it writes are collected in
    the process state below. *)
Record Logger : Type := mkLogger { name : string }.
End log.

(** ** Package [jaeger] (go.opentelemetry.io/otel/exporters/jaeger) *)

Module jaeger.

Inductive CollectorEndpointOption : Type :=
| WithEndpoint (endpoint : string).

Inductive EndpointOption : Type :=
| WithCollectorEndpoint (options : list CollectorEndpointOption).

(** An exporter is the external sink.  This package only ever asks it
    to shut down, so an exporter is described by how it answers:
    [ack = Some d] when its [Shutdown] comes back after [d] nanoseconds,
    [None] when it never does, and [failure] the error it comes back
    with. *)
Record Exporter : Type := mkExporter {
  ack : option time.Duration;
  failure : option error;
}.

(** [jaeger.New] is the collaborator's constructor: any function from
    the endpoint option to an exporter or an error. *)
Class Lib : Type := { New : EndpointOption -> Exporter + error }.

End jaeger.

(** ** Packages [resource], [semconv] and [tracesdk]
       (go.opentelemetry.io/otel/sdk/...) *)

Module resource.
Record Resource : Type := mkResource {
  schemaURL : string;
  attrs : list attribute.KeyValue;
}.
Definition NewWithAttributes (url : string) (kvs : list attribute.KeyValue) : Resource :=
  mkResource url kvs.
(** What a provider carries when no resource option is given. *)
Definition Empty : Resource := mkResource "" [].
End resource.

Module semconv.
Definition SchemaURL : string := "https://opentelemetry.io/schemas/1.4.0".
Definition ServiceNameKey : attribute.Key := "service.name".
End semconv.

Module tracesdk.

(** The only span processor this package builds: a batching one in
    front of an exporter. *)
Inductive SpanProcessor : Type :=
| BatchSpanProcessor (e : jaeger.Exporter).

(** [*tracesdk.TracerProvider] *)
Record TracerProvider : Type := mkTracerProvider {
  spanProcessors : list SpanProcessor;
  res : resource.Resource;
}.

Inductive TracerProviderOption : Type :=
| WithBatcher (e : jaeger.Exporter)
| WithResource (r : resource.Resource).

Definition apply_option (tp : TracerProvider) (o : TracerProviderOption) : TracerProvider :=
  match o with
  | WithBatcher e =>
      mkTracerProvider (spanProcessors tp ++ [BatchSpanProcessor e]) (res tp)
  | WithResource r => mkTracerProvider (spanProcessors tp) r
  end.

(** [tracesdk.NewTracerProvider(opts...)]: the options are applied in
    order to an empty provider. *)
Definition NewTracerProvider (opts : list TracerProviderOption) : TracerProvider :=
  fold_left apply_option opts (mkTracerProvider [] resource.Empty).

End tracesdk.

(** ** Package [trace] (go.opentelemetry.io/otel/trace) *)

Module trace.

(** The identity of a span.  Trace ids play no part here. *)
Definition SpanID : Type := nat.

(** [trace.Span], by implementation: the inert span handed out while
    no provider is installed (it only remembers the identity found in
    the context), and a span recorded by the SDK. *)
Inductive Span : Type :=
| nonRecordingSpan (sc : option SpanID)
| recordingSpan (id : SpanID).

Inductive SpanStartOption : Type :=
| WithAttributes (kvs : list attribute.KeyValue)
| WithNewRoot.

(** [trace.Tracer], by implementation: the tracer of the default
    global provider, which forwards to whatever provider is installed
    at the time of the call, and a tracer of an SDK provider. *)
Inductive Tracer : Type :=
| delegatingTracer (name : string)
| sdkTracer (tp : tracesdk.TracerProvider) (name : string).

(** [trace.TracerProvider], by implementation. *)
Inductive TracerProvider : Type :=
| defaultProvider
| sdkProvider (tp : tracesdk.TracerProvider).

(** [TracerProvider.Tracer(name)] *)
Definition Tracer_ (p : TracerProvider) (name : string) : Tracer :=
  match p with
  | defaultProvider => delegatingTracer name
  | sdkProvider tp => sdkTracer tp name
  end.

End trace.

(** ** Package [opentracing] (github.com/opentracing/opentracing-go) *)

Module opentracing.

(** [opentracing.Span], by implementation: the span of the no-op
    tracer and a span of a registered tracer. *)
Inductive Span : Type :=
| noopSpan
| tracedSpan (id : nat).

(** The tracer registered with [opentracing.SetGlobalTracer]; the
    no-op tracer until one is registered. *)
Inductive Tracer : Type :=
| NoopTracer
| RegisteredTracer.

(** The calls a span has received through its interface. *)
Inductive Call : Type :=
| SetTag (s : Span) (key : string) (value : any)
| Finish (s : Span).

(** What a registered tracer remembers of a span it started. *)
Record SpanRecord : Type := mkSpanRecord {
  operationName : string;
  parent : option nat;
}.

End opentracing.

(** ** Package [context] *)

Module context.

(** A context value is immutable.  It carries the instant at which its
    [Done] channel is closed together with the error [Err] reports
    from then on ([None]: never closed), and the active span of each
    tracing family. *)
Record Context : Type := mkContext {
  done : option (Z * error);
  span : option trace.Span;
  legacy_span : option opentracing.Span;
}.

Definition Background : Context := mkContext None None None.

End context.

(** ** The process state *)

(** A span recorded by the SDK. *)
Record SdkSpan : Type := mkSdkSpan {
  sdk_name : string;
  sdk_parent : option trace.SpanID;
  sdk_attributes : list attribute.KeyValue;
  sdk_ended : bool;
}.

(** One call of [TracerProvider.Shutdown]: the receiver, the context it
    was given and the instant of the call. *)
Record ShutdownCall : Type := mkShutdownCall {
  sd_provider : tracesdk.TracerProvider;
  sd_ctx : context.Context;
  sd_at : Z;
}.

(** Everything the process shares: the package variable [GlobalTracer]
    ([None] is the nil interface), the provider registered with [otel]
    ([None] until [otel.SetTracerProvider] is called), the spans the SDK
    has recorded, the ended spans waiting in the batching pipeline, the
    batches handed to the exporter, the shutdown calls made so far, the
    legacy tracer with its spans and the calls they received, the clock
    (nanoseconds) and the lines written to the log. *)
Record World : Type := mkWorld {
  GlobalTracer : option trace.Tracer;
  provider : option tracesdk.TracerProvider;
  recorded : gmap nat SdkSpan;
  queue : list trace.SpanID;
  exported : list (list trace.SpanID);
  shutdowns : list ShutdownCall;
  legacy_tracer : opentracing.Tracer;
  legacy_spans : gmap nat opentracing.SpanRecord;
  legacy_calls : list opentracing.Call;
  clock : Z;
  log_lines : list string;
}.

Definition set_GlobalTracer (t : option trace.Tracer) (w : World) : World :=
  mkWorld t (provider w) (recorded w) (queue w) (exported w) (shutdowns w)
          (legacy_tracer w) (legacy_spans w) (legacy_calls w) (clock w) (log_lines w).

Definition set_provider (p : option tracesdk.TracerProvider) (w : World) : World :=
  mkWorld (GlobalTracer w) p (recorded w) (queue w) (exported w) (shutdowns w)
          (legacy_tracer w) (legacy_spans w) (legacy_calls w) (clock w) (log_lines w).

Definition set_recorded (r : gmap nat SdkSpan) (w : World) : World :=
  mkWorld (GlobalTracer w) (provider w) r (queue w) (exported w) (shutdowns w)
          (legacy_tracer w) (legacy_spans w) (legacy_calls w) (clock w) (log_lines w).

Definition set_pipeline (q : list trace.SpanID) (e : list (list trace.SpanID))
    (w : World) : World :=
  mkWorld (GlobalTracer w) (provider w) (recorded w) q e (shutdowns w)
          (legacy_tracer w) (legacy_spans w) (legacy_calls w) (clock w) (log_lines w).

Definition add_shutdown (c : ShutdownCall) (w : World) : World :=
  mkWorld (GlobalTracer w) (provider w) (recorded w) (queue w) (exported w)
          (shutdowns w ++ [c])
          (legacy_tracer w) (legacy_spans w) (legacy_calls w) (clock w) (log_lines w).

Definition set_legacy_spans (s : gmap nat opentracing.SpanRecord) (w : World) : World :=
  mkWorld (GlobalTracer w) (provider w) (recorded w) (queue w) (exported w) (shutdowns w)
          (legacy_tracer w) s (legacy_calls w) (clock w) (log_lines w).

Definition add_legacy_call (c : opentracing.Call) (w : World) : World :=
  mkWorld (GlobalTracer w) (provider w) (recorded w) (queue w) (exported w) (shutdowns w)
          (legacy_tracer w) (legacy_spans w) (legacy_calls w ++ [c]) (clock w) (log_lines w).

Definition set_clock (t : Z) (w : World) : World :=
  mkWorld (GlobalTracer w) (provider w) (recorded w) (queue w) (exported w) (shutdowns w)
          (legacy_tracer w) (legacy_spans w) (legacy_calls w) t (log_lines w).

Definition add_log_line (l : string) (w : World) : World :=
  mkWorld (GlobalTracer w) (provider w) (recorded w) (queue w) (exported w) (shutdowns w)
          (legacy_tracer w) (legacy_spans w) (legacy_calls w) (clock w) (log_lines w ++ [l]).

(** The state of a process that has just started: every package
    variable holds its zero value, nothing is registered or recorded. *)
Definition initial_world : World :=
  mkWorld None None ∅ [] [] [] opentracing.NoopTracer ∅ [] 0 [].

(** ** Go computations *)

(** A call returns a value and a new state, panics, or blocks for
    ever. *)
Inductive Outcome (A : Type) : Type :=
| Returns (a : A) (w : World)
| Panics (reason : string)
| Blocks.
Arguments Returns {A} a w.
Arguments Panics {A} reason.
Arguments Blocks {A}.

Definition Go (A : Type) : Type := World -> Outcome A.

#[global] Instance Go_ret : MRet Go := fun A a w => Returns a w.
#[global] Instance Go_bind : MBind Go := fun A B f m w =>
  match m w with
  | Returns a w' => f a w'
  | Panics r => Panics r
  | Blocks => Blocks
  end.

Definition modify (f : World -> World) : Go unit := fun w => Returns tt (f w).
Definition panic {A : Type} (reason : string) : Go A := fun _ => Panics reason.

(** The panic of a method call through a nil interface or pointer. *)
Definition nil_dereference : string :=
  "runtime error: invalid memory address or nil pointer dereference".

(** [for _, x := range xs { body(x) }] and
    [for i, x := range xs { body(i, x) }] *)
Fixpoint range_from {A : Type} (i : Z) (xs : list A) (body : Z -> A -> Go unit) : Go unit :=
  match xs with
  | [] => mret tt
  | x :: rest => body i x ≫= λ _, range_from (i + 1) rest body
  end.

Definition range {A : Type} (xs : list A) (body : Z -> A -> Go unit) : Go unit :=
  range_from 0 xs body.

(** ** Operations of the collaborators on the process state *)

(** Package [context], the part that reads the clock. *)
Module ctx.

(** [context.WithTimeout(parent, d)]: a child whose [Done] closes at
    the parent's instant or [d] after now, whichever comes first.  The
    returned [cancel] only releases the timer. *)
Definition WithTimeout (parent : context.Context) (d : time.Duration)
  : Go (context.Context * Go unit) := fun w =>
  let deadline := clock w + d in
  let done' :=
    match context.done parent with
    | Some (t, e) => if t <=? deadline then Some (t, e) else Some (deadline, DeadlineExceeded)
    | None => Some (deadline, DeadlineExceeded)
    end in
  Returns (context.mkContext done' (context.span parent) (context.legacy_span parent),
           mret tt) w.

(** [<-ctx.Done()]: returns once the channel is closed, never when it
    is not going to be. *)
Definition await_Done (c : context.Context) : Go unit := fun w =>
  match context.done c with
  | Some (t, _) => Returns tt (set_clock (Z.max (clock w) t) w)
  | None => Blocks
  end.

(** [trace.ContextWithSpan] and [trace.SpanContextFromContext] *)
Definition ContextWithSpan (c : context.Context) (s : trace.Span) : context.Context :=
  context.mkContext (context.done c) (Some s) (context.legacy_span c).

Definition SpanContextFromContext (c : context.Context) : option trace.SpanID :=
  match context.span c with
  | Some (trace.recordingSpan id) => Some id
  | Some (trace.nonRecordingSpan sc) => sc
  | None => None
  end.

(** [opentracing.ContextWithSpan] *)
Definition ContextWithLegacySpan (c : context.Context) (s : opentracing.Span)
  : context.Context :=
  context.mkContext (context.done c) (context.span c) (Some s).

End ctx.

(** Package [otel]: the registry of the global provider. *)
Module otel.

Definition SetTracerProvider (tp : tracesdk.TracerProvider) : Go unit :=
  modify (set_provider (Some tp)).

Definition GetTracerProvider : Go trace.TracerProvider := fun w =>
  match provider w with
  | Some tp => Returns (trace.sdkProvider tp) w
  | None => Returns trace.defaultProvider w
  end.

End otel.

(** The SDK: spans, the batching pipeline and shutdown. *)
Module sdk.

Definition new_root (opts : list trace.SpanStartOption) : bool :=
  existsb (λ o, match o with trace.WithNewRoot => true | _ => false end) opts.

Definition start_attributes (opts : list trace.SpanStartOption) : list attribute.KeyValue :=
  flat_map (λ o, match o with trace.WithAttributes kvs => kvs | _ => [] end) opts.

(** The attributes of a span, the oldest first.  A span keeps one value
    per key: a pair whose key is already there replaces the old pair and
    counts as the newest.  A pair that is not valid is dropped, and when
    the count would exceed the limit the oldest pair goes. *)
Definition AttributeCountLimit : nat := 128.

Definition add_attribute (attrs : list attribute.KeyValue) (a : attribute.KeyValue)
  : list attribute.KeyValue :=
  if attribute.Valid a
  then let attrs' := filter (λ b, attribute.kvKey b ≠ attribute.kvKey a) attrs ++ [a] in
       if (AttributeCountLimit <? length attrs')%nat then tail attrs' else attrs'
  else attrs.

Definition record_attributes (attrs kv : list attribute.KeyValue) : list attribute.KeyValue :=
  fold_left add_attribute kv attrs.

(** [tracer.Start]: a fresh span whose parent is the identity found
    in the context, unless a new root is asked for. *)
Definition Start (c : context.Context) (spanName : string)
    (opts : list trace.SpanStartOption) : Go (context.Context * trace.Span) := fun w =>
  let psc := if new_root opts then None else ctx.SpanContextFromContext c in
  let id := fresh (dom (recorded w)) in
  let s := trace.recordingSpan id in
  Returns (ctx.ContextWithSpan c s, s)
          (set_recorded
             (<[id := mkSdkSpan spanName psc (record_attributes [] (start_attributes opts))
                                false]> (recorded w)) w).

(** [Span.End]: an inert span ignores it; on a recorded span the
    first call marks the span ended and queues it for export, later
    calls do nothing. *)
Definition End (s : trace.Span) : Go unit := fun w =>
  match s with
  | trace.nonRecordingSpan _ => Returns tt w
  | trace.recordingSpan id =>
      match recorded w !! id with
      | Some r =>
          if sdk_ended r then Returns tt w
          else Returns tt
                 (set_pipeline (queue w ++ [id]) (exported w)
                    (set_recorded
                       (<[id := mkSdkSpan (sdk_name r) (sdk_parent r) (sdk_attributes r) true]>
                          (recorded w)) w))
      | None => Returns tt w
      end
  end.

(** [Span.SetAttributes]: an inert span ignores it; a recorded span
    takes the pairs in, one after the other, while it has not ended. *)
Definition SetAttributes (s : trace.Span) (kv : list attribute.KeyValue) : Go unit := fun w =>
  match s with
  | trace.nonRecordingSpan _ => Returns tt w
  | trace.recordingSpan id =>
      match recorded w !! id with
      | Some r =>
          if sdk_ended r then Returns tt w
          else Returns tt
                 (set_recorded
                    (<[id := mkSdkSpan (sdk_name r) (sdk_parent r)
                                       (record_attributes (sdk_attributes r) kv) false]>
                       (recorded w)) w)
      | None => Returns tt w
      end
  end.

(** The batching pipeline hands the queued spans to the exporter as
    one batch; an empty queue produces no batch. *)
Definition flush (w : World) : World :=
  match queue w with
  | [] => w
  | q => set_pipeline [] (exported w ++ [q]) w
  end.

(** The batch timer firing. *)
Definition tick : Go unit := modify flush.

(** [BatchSpanProcessor.Shutdown(ctx)]: drain the queue, shut the
    exporter down, and wait for that or for the context, whichever comes
    first.  An error of the exporter goes to [otel.Handle] and is not
    returned: the result is nil when the exporter comes back in time and
    the error of the context otherwise. *)
Definition processor_Shutdown (sp : tracesdk.SpanProcessor) (c : context.Context)
  : Go (option error) := fun w =>
  match sp with
  | tracesdk.BatchSpanProcessor e =>
      let w1 := flush w in
      match jaeger.ack e, context.done c with
      | Some d, Some (t, err) =>
          if clock w + Z.max 0 d <? t
          then Returns None (set_clock (clock w + Z.max 0 d) w1)
          else Returns (Some err) (set_clock (Z.max (clock w) t) w1)
      | Some d, None => Returns None (set_clock (clock w + Z.max 0 d) w1)
      | None, Some (t, err) => Returns (Some err) (set_clock (Z.max (clock w) t) w1)
      | None, None => Blocks
      end
  end.

(** The loop of [TracerProvider.Shutdown]: before each processor the
    context is polled, and the first error ends the loop. *)
Fixpoint shutdown_processors (sps : list tracesdk.SpanProcessor) (c : context.Context)
  : Go (option error) :=
  match sps with
  | [] => mret None
  | sp :: rest => fun w =>
      match context.done c with
      | Some (t, err) =>
          if t <=? clock w then Returns (Some err) w
          else (processor_Shutdown sp c ≫= λ r,
                match r with
                | Some e => mret (Some e)
                | None => shutdown_processors rest c
                end) w
      | None =>
          (processor_Shutdown sp c ≫= λ r,
           match r with
           | Some e => mret (Some e)
           | None => shutdown_processors rest c
           end) w
      end
  end.

(** [TracerProvider.Shutdown(ctx)] on a non-nil receiver. *)
Definition Shutdown (tp : tracesdk.TracerProvider) (c : context.Context)
  : Go (option error) := fun w =>
  shutdown_processors (tracesdk.spanProcessors tp) c
    (add_shutdown (mkShutdownCall tp c (clock w)) w).

End sdk.

(** The two implementations of [trace.Tracer]. *)
Module tracer.

Definition Start (t : trace.Tracer) (c : context.Context) (spanName : string)
    (opts : list trace.SpanStartOption) : Go (context.Context * trace.Span) := fun w =>
  match t with
  | trace.sdkTracer _ _ => sdk.Start c spanName opts w
  | trace.delegatingTracer _ =>
      match provider w with
      | Some _ => sdk.Start c spanName opts w
      | None =>
          let s := trace.nonRecordingSpan (ctx.SpanContextFromContext c) in
          Returns (ctx.ContextWithSpan c s, s) w
      end
  end.

End tracer.

(** The legacy tracer. *)
Module legacy.

(** [opentracing.StartSpanFromContext]: a span of the global tracer,
    child of the span found in the context. *)
Definition StartSpanFromContext (c : context.Context) (operationName : string)
  : Go (opentracing.Span * context.Context) := fun w =>
  match legacy_tracer w with
  | opentracing.NoopTracer =>
      Returns (opentracing.noopSpan, ctx.ContextWithLegacySpan c opentracing.noopSpan) w
  | opentracing.RegisteredTracer =>
      let p := match context.legacy_span c with
               | Some (opentracing.tracedSpan i) => Some i
               | _ => None
               end in
      let id := fresh (dom (legacy_spans w)) in
      let s := opentracing.tracedSpan id in
      Returns (s, ctx.ContextWithLegacySpan c s)
              (set_legacy_spans
                 (<[id := opentracing.mkSpanRecord operationName p]> (legacy_spans w)) w)
  end.

(** [Span.SetTag] and [Span.Finish]: the call reaches the span. *)
Definition SetTag (s : opentracing.Span) (key : string) (value : any) : Go unit :=
  modify (add_legacy_call (opentracing.SetTag s key value)).

Definition Finish (s : opentracing.Span) : Go unit :=
  modify (add_legacy_call (opentracing.Finish s)).

End legacy.

Module logger.
(** [Logger.Info(msg)] *)
Definition Info (l : log.Logger) (msg : string) : Go unit := modify (add_log_line msg).
End logger.

(** * The package [tracing] *)

(** ** [OpentelemetrySpan]: the adapter of an attribute-based span *)

Module OpentelemetrySpan.

(** [type OpentelemetrySpan struct { span trace.Span }]; [None] is the
    nil interface. *)
Record t : Type := mk { span : option trace.Span }.

Definition End (s : t) : Go unit :=
  match span s with
  | Some sp => sdk.End sp
  | None => panic nil_dereference
  end.

Definition SetAttributes (s : t) (kv : list attribute.KeyValue) : Go unit :=
  match span s with
  | Some sp => sdk.SetAttributes sp kv
  | None => panic nil_dereference
  end.

End OpentelemetrySpan.

(** ** [OpentracingSpan]: the adapter of a legacy tag-based span *)

Module OpentracingSpan.

(** [type OpentracingSpan struct { span opentracing.Span }] *)
Record t : Type := mk { span : option opentracing.Span }.

Definition End (s : t) : Go unit :=
  match span s with
  | Some sp => legacy.Finish sp
  | None => panic nil_dereference
  end.

(** [for k, v := range kv { s.span.SetTag(fmt.Sprint(k), v) }]:
    ranging over a slice binds [k] to the position and [v] to the
    element. *)
Definition SetAttributes (s : t) (kv : list attribute.KeyValue) : Go unit :=
  range kv (λ k v,
    match span s with
    | Some sp => legacy.SetTag sp (fmt.Sprint_int k) (any_KeyValue v)
    | None => panic nil_dereference
    end).

(** The tags the specification asks for, in its own words: one tag per
    pair, keyed by the string form of the pair's key and holding the
    pair's value. *)
Definition tags_by_key (sp : opentracing.Span) (kv : list attribute.KeyValue)
  : list opentracing.Call :=
  map (λ p, opentracing.SetTag sp (fmt.Sprint_string (attribute.kvKey p))
                               (any_Value (attribute.kvValue p))) kv.

End OpentracingSpan.

(** ** The [Span] interface

    [type Span interface { End(); SetAttributes(kv ...attribute.KeyValue) }]:
    a value of the interface holds one of the two adapters. *)
Inductive Span : Type :=
| Span_Opentelemetry (s : OpentelemetrySpan.t)
| Span_Opentracing (s : OpentracingSpan.t).

Module Span.

Definition End (s : Span) : Go unit :=
  match s with
  | Span_Opentelemetry o => OpentelemetrySpan.End o
  | Span_Opentracing o => OpentracingSpan.End o
  end.

Definition SetAttributes (s : Span) (kv : list attribute.KeyValue) : Go unit :=
  match s with
  | Span_Opentelemetry o => OpentelemetrySpan.SetAttributes o kv
  | Span_Opentracing o => OpentracingSpan.SetAttributes o kv
  end.

End Span.

(** ** [OpentelemetryTracingService] *)

Module OpentelemetryTracingService.

(** The struct; [tracerProvider] is a pointer and [None] is nil.  The
    logger and the configuration are taken to be there. *)
Record t : Type := mk {
  enabled : bool;
  address : string;
  log : log.Logger;
  tracerProvider : option tracesdk.TracerProvider;
  Cfg : setting.Cfg;
}.

Definition set_enabled (b : bool) (ts : t) : t :=
  mk b (address ts) (log ts) (tracerProvider ts) (Cfg ts).

(** [[
    section, err := ts.Cfg.Raw.GetSection("tracing.opentelemetry.jaeger")
    if err != nil { return err }
    ts.enabled = section.Key("enabled").MustBool(false)
    return nil
    ]]
    The method has a pointer receiver: the service it leaves behind is
    returned next to the error. *)
Definition parseSettingsOpentelemetry (ts : t) : t * option error :=
  match ini.GetSection (setting.Raw (Cfg ts)) "tracing.opentelemetry.jaeger" with
  | inr err => (ts, Some err)
  | inl section =>
      let ts := set_enabled (ini.MustBool (ini.Key_ section "enabled") false) ts in
      (ts, None)
  end.

(** [[
    exp, err := jaeger.New(jaeger.WithCollectorEndpoint(jaeger.WithEndpoint(ts.address)))
    if err != nil { return nil, err }
    tp := tracesdk.NewTracerProvider(
            tracesdk.WithBatcher(exp),
            tracesdk.WithResource(resource.NewWithAttributes(
                    semconv.SchemaURL,
                    semconv.ServiceNameKey.String("grafana"),
                    attribute.String("environment", "production"))))
    return tp, nil
    ]]
    The result is [(nil, err)] or [(tp, nil)], hence a sum. *)
Definition initTracerProvider `{jaeger.Lib} (ts : t) : tracesdk.TracerProvider + error :=
  match jaeger.New (jaeger.WithCollectorEndpoint [jaeger.WithEndpoint (address ts)]) with
  | inr err => inr err
  | inl exp =>
      let tp := tracesdk.NewTracerProvider
                  [ tracesdk.WithBatcher exp;
                    tracesdk.WithResource
                      (resource.NewWithAttributes semconv.SchemaURL
                         [ attribute.String semconv.ServiceNameKey "grafana";
                           attribute.String "environment" "production" ]) ] in
      inl tp
  end.

(** [[
    tp, err := ots.initTracerProvider()
    if err != nil { return err }
    if ots.enabled { otel.SetTracerProvider(tp) }
    GlobalTracer = otel.GetTracerProvider().Tracer("component-main")
    return nil
    ]] *)
Definition initOpentelemetryTracer `{jaeger.Lib} (ots : t) : Go (option error) :=
  match initTracerProvider ots with
  | inr err => mret (Some err)
  | inl tp =>
      (if enabled ots then otel.SetTracerProvider tp else mret tt);;
      p ← otel.GetTracerProvider;
      modify (set_GlobalTracer (Some (trace.Tracer_ p "component-main")));;
      mret None
  end.

(** [[
    <-ctx.Done()
    ots.log.Info("Closing tracing")
    ctxShutdown, cancel := context.WithTimeout(context.Background(), time.Second*5)
    defer cancel()
    if err := ots.tracerProvider.Shutdown(ctxShutdown); err != nil { return err }
    return nil
    ]]
    [defer cancel()] runs once the result is known. *)
Definition Run (ots : t) (c : context.Context) : Go (option error) :=
  ctx.await_Done c;;
  logger.Info (log ots) "Closing tracing";;
  '(ctxShutdown, cancel) ← ctx.WithTimeout context.Background (time.Second * 5);
  r ← match tracerProvider ots with
      | Some tp => sdk.Shutdown tp ctxShutdown
      | None => panic nil_dereference
      end;
  cancel;;
  match r with
  | Some err => mret (Some err)
  | None => mret None
  end.

(** [[
    ctx, span := GlobalTracer.Start(ctx, spanName)
    oSpan := OpentelemetrySpan{span: span}
    return ctx, oSpan
    ]]
    [GlobalTracer.Start] is a call through the package variable, which
    panics while the variable is nil.  [opts] is not passed on. *)
Definition Start (ts : t) (c : context.Context) (spanName : string)
    (opts : list trace.SpanStartOption) : Go (context.Context * Span) :=
  '(c, span) ← (fun w => match GlobalTracer w with
                         | Some t => tracer.Start t c spanName [] w
                         | None => Panics nil_dereference
                         end);
  let oSpan := OpentelemetrySpan.mk (Some span) in
  mret (c, Span_Opentelemetry oSpan).

End OpentelemetryTracingService.

(** ** [TracingService]: the legacy tracer

    The struct is declared in another file of the package; [Start] reads
    none of its fields, so the receiver may be of any type. *)
Module TracingService.

(** [[
    span, ctx := opentracing.StartSpanFromContext(ctx, spanName)
    oSpan := OpentracingSpan{span: span}
    return ctx, oSpan
    ]] *)
Definition Start {TracingService : Type} (ts : TracingService) (c : context.Context)
    (spanName : string) (opts : list trace.SpanStartOption)
  : Go (context.Context * Span) :=
  '(span, c) ← legacy.StartSpanFromContext c spanName;
  let oSpan := OpentracingSpan.mk (Some span) in
  mret (c, Span_Opentracing oSpan).

End TracingService.

(** * Notions used to state the properties *)

(** The tags a legacy span receives from [OpentracingSpan.SetAttributes]
    as the source computes them: the [i]-th pair becomes a tag keyed by
    the decimal form of its position and holding the whole pair. *)
Fixpoint tags_by_position (sp : opentracing.Span) (i : Z) (kv : list attribute.KeyValue)
  : list opentracing.Call :=
  match kv with
  | [] => []
  | p :: rest =>
      opentracing.SetTag sp (fmt.Sprint_int i) (any_KeyValue p)
        :: tags_by_position sp (i + 1) rest
  end.

(** The identity a context hands to a span started from it. *)
Definition active_identity (c : context.Context) : option trace.SpanID :=
  ctx.SpanContextFromContext c.

Definition legacy_identity (s : option opentracing.Span) : option nat :=
  match s with
  | Some (opentracing.tracedSpan i) => Some i
  | _ => None
  end.

(** The parent identity recorded for a span, if the span is recorded at
    all. *)
Definition recorded_parent (w : World) (s : Span) : option nat :=
  match s with
  | Span_Opentelemetry (OpentelemetrySpan.mk (Some (trace.recordingSpan id))) =>
      recorded w !! id ≫= sdk_parent
  | Span_Opentracing (OpentracingSpan.mk (Some (opentracing.tracedSpan id))) =>
      legacy_spans w !! id ≫= opentracing.parent
  | _ => None
  end.

(** Whether the SDK or the legacy tracer keeps a record of the span. *)
Definition is_recorded (w : World) (s : Span) : Prop :=
  match s with
  | Span_Opentelemetry (OpentelemetrySpan.mk (Some (trace.recordingSpan id))) =>
      is_Some (recorded w !! id)
  | Span_Opentracing (OpentracingSpan.mk (Some (opentracing.tracedSpan id))) =>
      is_Some (legacy_spans w !! id)
  | _ => False
  end.

(** A span that is inert: the adapter of a non-recording span. *)
Definition is_noop (s : Span) : Prop :=
  ∃ sc, s = Span_Opentelemetry (OpentelemetrySpan.mk (Some (trace.nonRecordingSpan sc))).

(** A tracer that records through a provider in state [w]. *)
Definition records_spans (w : World) (t : trace.Tracer) : Prop :=
  match t with
  | trace.sdkTracer _ _ => True
  | trace.delegatingTracer _ => is_Some (provider w)
  end.

(** The process at start-up, as far as tracing goes: no provider has
    been registered and the pipeline has seen no span. *)
Definition at_startup (w : World) : Prop :=
  provider w = None ∧ recorded w = ∅ ∧ queue w = [] ∧ exported w = [].

(** What the rest of the process can do once the service is built: start
    spans through either tracer, annotate and end any span, let the batch
    timer fire, and run the shutdown task.  Only calls that return are
    steps. *)
Inductive activity : World -> World -> Prop :=
| act_Start ts c spanName opts r w w' :
    OpentelemetryTracingService.Start ts c spanName opts w = Returns r w' ->
    activity w w'
| act_legacy_Start (ts : unit) c spanName opts r w w' :
    TracingService.Start ts c spanName opts w = Returns r w' ->
    activity w w'
| act_SetAttributes s kv w w' :
    Span.SetAttributes s kv w = Returns tt w' ->
    activity w w'
| act_End s w w' :
    Span.End s w = Returns tt w' ->
    activity w w'
| act_tick w w' :
    sdk.tick w = Returns tt w' ->
    activity w w'
| act_Run ots c r w w' :
    OpentelemetryTracingService.Run ots c w = Returns r w' ->
    activity w w'.

(** The state in which a disabled service leaves the tracing pipeline. *)
Definition inert (w : World) : Prop :=
  (∃ n, GlobalTracer w = Some (trace.delegatingTracer n)) ∧ at_startup w.

(** The section the settings are read from, if the file has it. *)
Definition configured_section (ts : OpentelemetryTracingService.t) : option ini.Section :=
  match ini.sections (setting.Raw (OpentelemetryTracingService.Cfg ts))
          !! "tracing.opentelemetry.jaeger" with
  | Some _ =>
      Some (ini.mkSection (setting.Raw (OpentelemetryTracingService.Cfg ts))
              "tracing.opentelemetry.jaeger")
  | None => None
  end.

(** The key ["enabled"] the settings are read from: that of the section
    itself or, when the section has none, that of the nearest of its
    ancestor sections [tracing.opentelemetry] and [tracing] that has
    one. *)
Definition enabled_key (fl : ini.File) : option ini.Key :=
  ini.lookup_in fl ["tracing.opentelemetry.jaeger"; "tracing.opentelemetry"; "tracing"]
    "enabled".

(** The flag as the file states it: the boolean literal that key
    holds once its references are expanded, or [false] when there is no
    such key or it holds anything else. *)
Definition configured_enabled (fl : ini.File) : bool :=
  match enabled_key fl with
  | Some k => default false (ini.parseBool (ini.String_ k))
  | None => false
  end.

(** The context [Run] builds for the shutdown when it is reached at
    instant [now]: a child of the background context with a deadline
    five seconds later. *)
Definition shutdown_context (now : Z) : context.Context :=
  context.mkContext (Some (now + time.Second * 5, DeadlineExceeded)) None None.

(** The state in which [Run] calls the shutdown: the clock has reached
    the cancellation and the closing line is logged. *)
Definition at_cancellation (T : Z) (w : World) : World :=
  add_log_line "Closing tracing" (set_clock (Z.max (clock w) T) w).

(** A step that leaves the tracer, the provider, the recorded spans and
    the shutdown log alone, and exports nothing when nothing is
    queued. *)
Definition quiet (w w' : World) : Prop :=
  GlobalTracer w' = GlobalTracer w ∧
  provider w' = provider w ∧
  recorded w' = recorded w ∧
  shutdowns w' = shutdowns w ∧
  (queue w = [] -> queue w' = [] ∧ exported w' = exported w).


(** ** Sample values *)

Module sample.

Definition tracing_section (enabled_value : string) : gmap string string :=
  {[ "enabled" := enabled_value;
     "address" := "http://collector:14268";
     "endpoint" := "http://collector:14268" ]}.

Definition cfg (enabled_value : string) : setting.Cfg :=
  setting.mkCfg
    (ini.mkFile {[ "DEFAULT" := ∅;
                   "tracing.opentelemetry.jaeger" := tracing_section enabled_value ]}).

Definition no_tracing_cfg : setting.Cfg := setting.mkCfg (ini.mkFile {[ "DEFAULT" := ∅ ]}).

(** A file whose jaeger section leaves the flag to the section
    [tracing], and one whose flag refers to a key of the default
    section. *)
Definition inheriting_cfg : setting.Cfg :=
  setting.mkCfg
    (ini.mkFile {[ "DEFAULT" := ∅;
                   "tracing" := {[ "enabled" := "true" ]};
                   "tracing.opentelemetry.jaeger" := {[ "address" := "localhost:14268" ]} ]}).

Definition referring_cfg : setting.Cfg :=
  setting.mkCfg
    (ini.mkFile {[ "DEFAULT" := {[ "switch" := "on" ]};
                   "tracing.opentelemetry.jaeger" := {[ "enabled" := "%(switch)s" ]} ]}).

(** A service as a constructor would leave it before the settings are
    parsed. *)
Definition service (c : setting.Cfg) : OpentelemetryTracingService.t :=
  OpentelemetryTracingService.mk false "" (log.mkLogger "tracing") None c.

(** An exporter that comes back from a shutdown after one millisecond,
    one that never does, and one that comes back with a failure. *)
Definition prompt_exporter : jaeger.Exporter := jaeger.mkExporter (Some 1000000) None.
Definition silent_exporter : jaeger.Exporter := jaeger.mkExporter None None.
Definition failing_exporter : jaeger.Exporter :=
  jaeger.mkExporter (Some 1000000) (Some (errorString "collector unreachable")).

Definition working_jaeger : jaeger.Lib := {| jaeger.New := λ _, inl prompt_exporter |}.

Definition provider_of (e : jaeger.Exporter) : tracesdk.TracerProvider :=
  tracesdk.NewTracerProvider [tracesdk.WithBatcher e].

(** The provider [initTracerProvider] builds around the prompt
    exporter. *)
Definition running_service_provider : tracesdk.TracerProvider :=
  tracesdk.mkTracerProvider [tracesdk.BatchSpanProcessor prompt_exporter]
    (resource.NewWithAttributes semconv.SchemaURL
       [attribute.String semconv.ServiceNameKey "grafana";
        attribute.String "environment" "production"]).

Definition running_service (e : jaeger.Exporter) : OpentelemetryTracingService.t :=
  OpentelemetryTracingService.mk true "http://collector:14268" (log.mkLogger "tracing")
    (Some (provider_of e)) (cfg "true").

(** A context cancelled at instant 50, and one that carries span 7. *)
Definition cancelled : context.Context := context.mkContext (Some (50, Canceled)) None None.
Definition within_span_7 : context.Context :=
  context.mkContext None (Some (trace.recordingSpan 7%nat)) (Some (opentracing.tracedSpan 7%nat)).

End sample.

(** ** Further notions *)

(** A process in which a legacy tracer has been registered. *)
Definition legacy_world_of (w : World) : World :=
  mkWorld (GlobalTracer w) (provider w) (recorded w) (queue w) (exported w) (shutdowns w)
          opentracing.RegisteredTracer (legacy_spans w) (legacy_calls w) (clock w)
          (log_lines w).

(** The key of a tag call; a [Finish] call has none. *)
Definition tag_key (c : opentracing.Call) : option string :=
  match c with
  | opentracing.SetTag _ k _ => Some k
  | opentracing.Finish _ => None
  end.

(** The same call made [n] times in a row. *)
Fixpoint times (n : nat) (m : Go unit) : Go unit :=
  match n with
  | O => mret tt
  | S n' => m ≫= λ _, times n' m
  end.

(** The identity under which a span of either family is recorded. *)
Definition span_identity (s : Span) : option nat :=
  match s with
  | Span_Opentelemetry (OpentelemetrySpan.mk (Some (trace.recordingSpan id))) => Some id
  | Span_Opentracing (OpentracingSpan.mk (Some (opentracing.tracedSpan id))) => Some id
  | _ => None
  end.

(** * Properties *)

(** ** The legacy span adapter *)

Section legacy_tags.

Variable sp : opentracing.Span.

Let body : Z -> attribute.KeyValue -> Go unit :=
  λ k v, legacy.SetTag sp (fmt.Sprint_int k) (any_KeyValue v).

Lemma range_from_SetTag (kv : list attribute.KeyValue) :
  ∀ i w, ∃ w',
    range_from i kv body w = Returns tt w' ∧
    legacy_calls w' = legacy_calls w ++ tags_by_position sp i kv.
Proof.
  induction kv as [|p rest IH]; intros i w; simpl.
  - exists w. split; [reflexivity | by rewrite app_nil_r].
  - destruct (IH (i + 1) (add_legacy_call (opentracing.SetTag sp (fmt.Sprint_int i)
                                             (any_KeyValue p)) w)) as (w' & Hrun & Hcalls).
    exists w'. split.
    + exact Hrun.
    + rewrite Hcalls. simpl. by rewrite <- app_assoc.
Qed.

(** On a non-nil span the adapter returns, and the span has received
    the tags by position, after whatever it had received before. *)
Lemma OpentracingSpan_SetAttributes_calls (kv : list attribute.KeyValue) (w : World) :
  ∃ w',
    OpentracingSpan.SetAttributes (OpentracingSpan.mk (Some sp)) kv w = Returns tt w' ∧
    legacy_calls w' = legacy_calls w ++ tags_by_position sp 0 kv.
Proof. apply range_from_SetTag. Qed.

Lemma tags_by_position_length (kv : list attribute.KeyValue) :
  ∀ i, length (tags_by_position sp i kv) = length kv.
Proof. induction kv as [|p rest IH]; intros i; simpl; [done | by rewrite IH]. Qed.

(** The part of the requirement the source meets: N pairs, N calls. *)
Lemma OpentracingSpan_SetAttributes_count (kv : list attribute.KeyValue) (w : World) :
  ∃ w',
    OpentracingSpan.SetAttributes (OpentracingSpan.mk (Some sp)) kv w = Returns tt w' ∧
    length (legacy_calls w') = (length (legacy_calls w) + length kv)%nat.
Proof.
  destruct (OpentracingSpan_SetAttributes_calls kv w) as (w' & Hrun & Hcalls).
  exists w'. split; [exact Hrun |].
  by rewrite Hcalls, length_app, tags_by_position_length.
Qed.

(** No tag computed by the source is the tag asked for: the value is
    always the whole pair. *)
Lemma tags_by_position_never_by_key (kv : list attribute.KeyValue) (i : Z) :
  kv ≠ [] -> tags_by_position sp i kv ≠ OpentracingSpan.tags_by_key sp kv.
Proof. destruct kv as [|p rest]; [done |]. intros _. simpl. congruence. Qed.

End legacy_tags.

(** C1.  The requirement is that [SetAttributes] on the legacy adapter
    sets one tag per pair, keyed by the string form of the pair's key
    and holding the pair's value.  On the single pair
    ["http.method" = "GET"] the source makes one call, as required, but
    the tag is keyed ["0"] (the position of the pair) and holds the
    whole pair, which is not the tag asked for. *)
Theorem OpentracingSpan_SetAttributes_tags_position_not_key :
  let sp := opentracing.tracedSpan 1 in
  let kv := [attribute.String "http.method" "GET"] in
  ∃ w',
    OpentracingSpan.SetAttributes (OpentracingSpan.mk (Some sp)) kv initial_world
      = Returns tt w' ∧
    legacy_calls w'
      = [opentracing.SetTag sp "0" (any_KeyValue (attribute.String "http.method" "GET"))] ∧
    OpentracingSpan.tags_by_key sp kv
      = [opentracing.SetTag sp "http.method" (any_Value (attribute.StringValue "GET"))] ∧
    legacy_calls w' ≠ OpentracingSpan.tags_by_key sp kv.
Proof.
  intros sp kv. eexists. split; [reflexivity |].
  split; [reflexivity |]. split; [reflexivity |].
  simpl. congruence.
Qed.

(** ** Settings *)

Section settings.

Import OpentelemetryTracingService.

Example ancestors_of_the_section :
  ini.ancestors "tracing.opentelemetry.jaeger" = ["tracing.opentelemetry"; "tracing"].
Proof. reflexivity. Qed.

Lemma Key_enabled (fl : ini.File) :
  ini.Key_ (ini.mkSection fl "tracing.opentelemetry.jaeger") "enabled"
    = default (ini.mkKey (ini.mkSection fl "tracing.opentelemetry.jaeger") "enabled" "")
              (enabled_key fl).
Proof.
  unfold ini.Key_, ini.GetKey, enabled_key. cbn [ini.f ini.name].
  rewrite ancestors_of_the_section. by destruct (ini.lookup_in _ _ _).
Qed.

Lemma MustBool_configured (fl : ini.File) :
  ini.MustBool (ini.Key_ (ini.mkSection fl "tracing.opentelemetry.jaeger") "enabled") false
    = configured_enabled fl.
Proof.
  rewrite Key_enabled. unfold ini.MustBool, configured_enabled.
  destruct (enabled_key fl) as [k|]; simpl; [| reflexivity].
  by destruct (ini.parseBool (ini.String_ k)).
Qed.

Lemma String_without_reference (k : ini.Key) :
  ini.contains_percent (ini.value k) = false -> ini.String_ k = ini.value k.
Proof. unfold ini.String_. by intros ->. Qed.

Lemma parseSettings_absent (ts : t) :
  configured_section ts = None ->
  ∃ err, parseSettingsOpentelemetry ts = (ts, Some err).
Proof.
  unfold configured_section, parseSettingsOpentelemetry, ini.GetSection.
  change (ini.section_name "tracing.opentelemetry.jaeger")
    with "tracing.opentelemetry.jaeger".
  destruct (ini.sections _ !! _); [discriminate | eauto].
Qed.

Lemma parseSettings_present (ts : t) (s : ini.Section) :
  configured_section ts = Some s ->
  parseSettingsOpentelemetry ts
    = (set_enabled (configured_enabled (setting.Raw (Cfg ts))) ts, None).
Proof.
  unfold configured_section, parseSettingsOpentelemetry, ini.GetSection.
  change (ini.section_name "tracing.opentelemetry.jaeger")
    with "tracing.opentelemetry.jaeger".
  destruct (ini.sections _ !! _); [| discriminate].
  intros _. by rewrite MustBool_configured.
Qed.

(** The parser never writes the collector address. *)
Lemma parseSettings_address (ts : t) :
  address (fst (parseSettingsOpentelemetry ts)) = address ts.
Proof.
  destruct (configured_section ts) as [s|] eqn:E.
  - by rewrite (parseSettings_present _ _ E).
  - by destruct (parseSettings_absent _ E) as (err & ->).
Qed.

End settings.

(** C2, as amended.  [parseSettingsOpentelemetry] returns an error
    exactly when the file has no section [tracing.opentelemetry.jaeger].
    When the section is there the call succeeds, and [enabled] becomes
    the flag as the file states it: the boolean literal read under
    ["enabled"] from the section or, when the section has no such key,
    from the nearest ancestor section that has one, and [false] when no
    such key exists or what it holds is not a boolean literal.  A value
    without [%] is read as it stands. *)
Theorem parseSettingsOpentelemetry_enabled_only (ts : OpentelemetryTracingService.t) :
  let r := OpentelemetryTracingService.parseSettingsOpentelemetry ts in
  let fl := setting.Raw (OpentelemetryTracingService.Cfg ts) in
  (snd r ≠ None ↔ configured_section ts = None) ∧
  (∀ s, configured_section ts = Some s ->
        snd r = None ∧
        OpentelemetryTracingService.enabled (fst r) = configured_enabled fl ∧
        (enabled_key fl = None -> OpentelemetryTracingService.enabled (fst r) = false) ∧
        (∀ k, enabled_key fl = Some k ->
              ini.contains_percent (ini.value k) = false ->
              OpentelemetryTracingService.enabled (fst r)
                = default false (ini.parseBool (ini.value k)))).
Proof.
  simpl. split.
  - destruct (configured_section ts) as [s|] eqn:E.
    + rewrite (parseSettings_present _ _ E). simpl. split; congruence.
    + destruct (parseSettings_absent _ E) as (err & ->). simpl. split; congruence.
  - intros s E. rewrite (parseSettings_present _ _ E). simpl.
    split; [reflexivity |]. split; [reflexivity |].
    unfold configured_enabled. split.
    + by intros ->.
    + intros k -> Hk. by rewrite String_without_reference.
Qed.

Lemma parseSettingsOpentelemetry_enabled_only_witness :
  (snd (OpentelemetryTracingService.parseSettingsOpentelemetry
          (sample.service sample.inheriting_cfg)) = None ∧
   OpentelemetryTracingService.enabled
     (fst (OpentelemetryTracingService.parseSettingsOpentelemetry
             (sample.service sample.inheriting_cfg))) = true) ∧
  (snd (OpentelemetryTracingService.parseSettingsOpentelemetry
          (sample.service (sample.cfg "off"))) = None ∧
   OpentelemetryTracingService.enabled
     (fst (OpentelemetryTracingService.parseSettingsOpentelemetry
             (sample.service (sample.cfg "off")))) = false).
Proof.
  split.
  - destruct (proj2 (parseSettingsOpentelemetry_enabled_only
                       (sample.service sample.inheriting_cfg))
                    (ini.mkSection _ "tracing.opentelemetry.jaeger") eq_refl)
      as (Herr & _ & _ & Hval).
    split; [exact Herr |].
    exact (Hval (ini.mkKey (ini.mkSection _ "tracing") "enabled" "true") eq_refl eq_refl).
  - destruct (proj2 (parseSettingsOpentelemetry_enabled_only
                       (sample.service (sample.cfg "off")))
                    (ini.mkSection _ "tracing.opentelemetry.jaeger") eq_refl)
      as (Herr & _ & _ & Hval).
    split; [exact Herr |].
    exact (Hval (ini.mkKey (ini.mkSection _ "tracing.opentelemetry.jaeger") "enabled" "off")
             eq_refl eq_refl).
Defined.

(** C2, as stated, fails on a section that is present, whose ["enabled"]
    is not a boolean and whose collector endpoint is set: the call
    reports no error, takes the flag to be [false], and the address of
    the service is still empty, not the configured endpoint. *)
Lemma parseSettingsOpentelemetry_malformed_section_accepted :
  let ts := sample.service (sample.cfg "banana") in
  let r := OpentelemetryTracingService.parseSettingsOpentelemetry ts in
  ini.sections (setting.Raw (OpentelemetryTracingService.Cfg ts))
    !! "tracing.opentelemetry.jaeger" = Some (sample.tracing_section "banana") ∧
  ini.parseBool "banana" = None ∧
  sample.tracing_section "banana" !! "enabled" = Some "banana" ∧
  sample.tracing_section "banana" !! "endpoint" = Some "http://collector:14268" ∧
  sample.tracing_section "banana" !! "address" = Some "http://collector:14268" ∧
  snd r = None ∧
  OpentelemetryTracingService.enabled (fst r) = false ∧
  OpentelemetryTracingService.address (fst r) = "" ∧
  OpentelemetryTracingService.address (fst r) ≠ "http://collector:14268".
Proof. simpl. repeat split; try reflexivity. vm_compute. congruence. Qed.

(** The lookup rules of the settings file at work: a flag inherited
    from the section [tracing], and a flag that refers to a key of the
    default section. *)
Example parseSettingsOpentelemetry_inherits_and_expands :
  OpentelemetryTracingService.enabled
    (fst (OpentelemetryTracingService.parseSettingsOpentelemetry
            (sample.service sample.inheriting_cfg))) = true ∧
  OpentelemetryTracingService.enabled
    (fst (OpentelemetryTracingService.parseSettingsOpentelemetry
            (sample.service sample.referring_cfg))) = true.
Proof. split; reflexivity. Qed.

(** ** Building the provider *)

(** C7.  [initTracerProvider] asks [jaeger.New] for an exporter of the
    collector endpoint held in the [address] field.  If that fails, the
    same error is returned, no provider is built, and initialisation
    returns that error with the process state untouched; otherwise the
    call succeeds, and the provider it returns has exactly one span
    processor, a batching one in front of that exporter, and carries the
    fixed service name and environment. *)
Theorem initTracerProvider_exporter_for_address `{jaeger.Lib}
    (ts : OpentelemetryTracingService.t) :
  match jaeger.New (jaeger.WithCollectorEndpoint
                      [jaeger.WithEndpoint (OpentelemetryTracingService.address ts)]) with
  | inr err =>
      OpentelemetryTracingService.initTracerProvider ts = inr err ∧
      ∀ w, OpentelemetryTracingService.initOpentelemetryTracer ts w = Returns (Some err) w
  | inl exp =>
      ∃ tp, OpentelemetryTracingService.initTracerProvider ts = inl tp ∧
            tracesdk.spanProcessors tp = [tracesdk.BatchSpanProcessor exp] ∧
            resource.attrs (tracesdk.res tp)
              = [attribute.String "service.name" "grafana";
                 attribute.String "environment" "production"]
  end.
Proof.
  unfold OpentelemetryTracingService.initOpentelemetryTracer,
    OpentelemetryTracingService.initTracerProvider.
  destruct (jaeger.New _) as [exp|err]; [| split; reflexivity].
  eexists. split; [reflexivity |]. split; reflexivity.
Qed.

(** ** Starting spans through the package variable *)

Lemma Start_unfold (ts : OpentelemetryTracingService.t) (c : context.Context)
    (spanName : string) (opts : list trace.SpanStartOption) (w : World) :
  OpentelemetryTracingService.Start ts c spanName opts w =
  match GlobalTracer w with
  | Some t =>
      match tracer.Start t c spanName [] w with
      | Returns (c', s) w' =>
          Returns (c', Span_Opentelemetry (OpentelemetrySpan.mk (Some s))) w'
      | Panics r => Panics r
      | Blocks => Blocks
      end
  | None => Panics nil_dereference
  end.
Proof.
  unfold OpentelemetryTracingService.Start, mbind, Go_bind.
  destruct (GlobalTracer w) as [t|]; [| reflexivity].
  by destruct (tracer.Start t c spanName [] w) as [[c' s] w'| |].
Qed.

(** What the tracer behind the variable answers, whatever it is. *)
Lemma tracer_Start_returns (t : trace.Tracer) (c : context.Context) (spanName : string)
    (opts : list trace.SpanStartOption) (w : World) :
  ∃ s w', tracer.Start t c spanName opts w = Returns (ctx.ContextWithSpan c s, s) w'.
Proof.
  destruct t as [n|tp n]; unfold tracer.Start, sdk.Start.
  - destruct (provider w); eauto.
  - eauto.
Qed.

Lemma span_End_returns (sp : trace.Span) (w : World) :
  ∃ w', sdk.End sp w = Returns tt w'.
Proof.
  destruct sp as [sc|id]; simpl; [eauto |].
  destruct (recorded w !! id) as [r|]; [| eauto].
  destruct (sdk_ended r); eauto.
Qed.

Lemma span_SetAttributes_returns (sp : trace.Span) (kv : list attribute.KeyValue) (w : World) :
  ∃ w', sdk.SetAttributes sp kv w = Returns tt w'.
Proof.
  destruct sp as [sc|id]; simpl; [eauto |].
  destruct (recorded w !! id) as [r|]; [| eauto].
  destruct (sdk_ended r); eauto.
Qed.

(** C9.  The options given to [Start] play no part in its result: the
    call returns what it returns without options, which is what the
    tracer behind [GlobalTracer] answers to an empty option list. *)
Theorem Start_ignores_options (ts : OpentelemetryTracingService.t) (c : context.Context)
    (spanName : string) (opts : list trace.SpanStartOption) (w : World) :
  OpentelemetryTracingService.Start ts c spanName opts w
    = OpentelemetryTracingService.Start ts c spanName [] w ∧
  OpentelemetryTracingService.Start ts c spanName opts w
    = match GlobalTracer w with
      | Some t =>
          match tracer.Start t c spanName [] w with
          | Returns (c', s) w' =>
              Returns (c', Span_Opentelemetry (OpentelemetrySpan.mk (Some s))) w'
          | Panics r => Panics r
          | Blocks => Blocks
          end
      | None => Panics nil_dereference
      end.
Proof. split; [by rewrite !Start_unfold | apply Start_unfold]. Qed.

(** The tracer itself does look at its options: asked for a new root
    inside span 7 it records no parent, where [Start] records 7. *)
Example tracer_Start_honours_options :
  let t := trace.sdkTracer (sample.provider_of sample.prompt_exporter) "component-main" in
  let w := set_GlobalTracer (Some t) initial_world in
  (∃ c' s w', tracer.Start t sample.within_span_7 "op" [trace.WithNewRoot] w
                = Returns (c', s) w' ∧
              recorded_parent w' (Span_Opentelemetry (OpentelemetrySpan.mk (Some s))) = None) ∧
  (∃ c' s w', OpentelemetryTracingService.Start
                (sample.running_service sample.prompt_exporter)
                sample.within_span_7 "op" [trace.WithNewRoot] w
                = Returns (c', s) w' ∧
              recorded_parent w' s = Some 7%nat).
Proof. split; do 3 eexists; split; reflexivity. Qed.

(** C10.  [GlobalTracer] is nil when the process starts, and while it is
    nil every call of [Start] panics with a nil dereference: no span is
    returned, inert or otherwise. *)
Theorem Start_before_initialisation_panics :
  GlobalTracer initial_world = None ∧
  ∀ (ts : OpentelemetryTracingService.t) (c : context.Context) (spanName : string)
    (opts : list trace.SpanStartOption) (w : World),
    GlobalTracer w = None ->
    OpentelemetryTracingService.Start ts c spanName opts w = Panics nil_dereference.
Proof.
  split; [reflexivity |].
  intros ts c spanName opts w Hnil. by rewrite Start_unfold, Hnil.
Qed.

Lemma Start_before_initialisation_panics_witness :
  OpentelemetryTracingService.Start (sample.service (sample.cfg "true"))
    context.Background "op" [] initial_world = Panics nil_dereference.
Proof.
  apply (proj2 Start_before_initialisation_panics). reflexivity.
Defined.

(** C6, as amended.  Once [GlobalTracer] holds a tracer, whichever it
    is and whether or not a provider is installed, [Start] returns for
    every context and span name.  It returns a context derived from the
    one given, carrying the new span, and an adapter around a non-nil
    span on which [SetAttributes] and [End] return in every state. *)
Theorem Start_returns_usable_span_once_initialised
    (ts : OpentelemetryTracingService.t) (c : context.Context) (spanName : string)
    (opts : list trace.SpanStartOption) (w : World) (t : trace.Tracer) :
  GlobalTracer w = Some t ->
  ∃ sp w',
    OpentelemetryTracingService.Start ts c spanName opts w
      = Returns (ctx.ContextWithSpan c sp,
                 Span_Opentelemetry (OpentelemetrySpan.mk (Some sp))) w' ∧
    (∀ kv w1, ∃ w2,
        Span.SetAttributes (Span_Opentelemetry (OpentelemetrySpan.mk (Some sp))) kv w1
          = Returns tt w2) ∧
    (∀ w1, ∃ w2,
        Span.End (Span_Opentelemetry (OpentelemetrySpan.mk (Some sp))) w1 = Returns tt w2).
Proof.
  intros Ht. rewrite Start_unfold, Ht.
  destruct (tracer_Start_returns t c spanName [] w) as (sp & w' & ->).
  exists sp, w'. split; [reflexivity |]. split.
  - intros kv w1. apply span_SetAttributes_returns.
  - intros w1. apply span_End_returns.
Qed.

Lemma Start_returns_usable_span_once_initialised_witness :
  ∃ sp w',
    OpentelemetryTracingService.Start (sample.service (sample.cfg "false"))
      context.Background "op" []
      (set_GlobalTracer (Some (trace.delegatingTracer "component-main")) initial_world)
      = Returns (ctx.ContextWithSpan context.Background sp,
                 Span_Opentelemetry (OpentelemetrySpan.mk (Some sp))) w' ∧
    (∀ kv w1, ∃ w2,
        Span.SetAttributes (Span_Opentelemetry (OpentelemetrySpan.mk (Some sp))) kv w1
          = Returns tt w2) ∧
    (∀ w1, ∃ w2,
        Span.End (Span_Opentelemetry (OpentelemetrySpan.mk (Some sp))) w1 = Returns tt w2).
Proof.
  apply (Start_returns_usable_span_once_initialised
           (sample.service (sample.cfg "false")) context.Background "op" []
           (set_GlobalTracer (Some (trace.delegatingTracer "component-main")) initial_world)
           (trace.delegatingTracer "component-main")).
  reflexivity.
Defined.

(** C6, as stated, fails in a process that has not run the
    initialisation yet.  [GlobalTracer] is then nil, and [Start] on a
    disabled service, from a context with an active span, panics instead
    of returning an inert span: there is no call that returns. *)
Lemma Start_on_uninitialised_process_panics :
  let ts := fst (OpentelemetryTracingService.parseSettingsOpentelemetry
                   (sample.service (sample.cfg "false"))) in
  OpentelemetryTracingService.enabled ts = false ∧
  GlobalTracer initial_world = None ∧
  OpentelemetryTracingService.Start ts sample.within_span_7 "request" [] initial_world
    = Panics nil_dereference ∧
  ∀ r w', OpentelemetryTracingService.Start ts sample.within_span_7 "request" []
            initial_world ≠ Returns r w'.
Proof. simpl. repeat split; try reflexivity. discriminate. Qed.

(** ** Shutdown *)

Lemma flush_quiet (w : World) : quiet w (sdk.flush w) ∧ clock (sdk.flush w) = clock w.
Proof.
  unfold sdk.flush, quiet. destruct (queue w) as [|x q] eqn:E; simpl; rewrite ?E; naive_solver.
Qed.

Lemma quiet_refl (w : World) : quiet w w.
Proof. unfold quiet. naive_solver. Qed.

Lemma quiet_trans (w1 w2 w3 : World) : quiet w1 w2 -> quiet w2 w3 -> quiet w1 w3.
Proof.
  unfold quiet. intros (A1 & A2 & A3 & A4 & A5) (B1 & B2 & B3 & B4 & B5).
  repeat (split; [congruence |]).
  intros Hq. destruct (A5 Hq) as [Q1 E1]. destruct (B5 Q1) as [Q2 E2].
  split; congruence.
Qed.

Lemma set_clock_quiet (t : Z) (w : World) : quiet w (set_clock t w).
Proof. unfold quiet. simpl. naive_solver. Qed.

(** A processor returns whenever the context has a deadline, by the
    deadline if it was called before it. *)
Lemma processor_Shutdown_returns (sp : tracesdk.SpanProcessor) (c : context.Context)
    (t : Z) (e : error) (w : World) :
  context.done c = Some (t, e) ->
  ∃ r w', sdk.processor_Shutdown sp c w = Returns r w' ∧
          quiet w w' ∧ clock w' ≤ Z.max (clock w) t.
Proof.
  intros Hd. destruct sp as [ex]. unfold sdk.processor_Shutdown. rewrite Hd.
  destruct (flush_quiet w) as [Hq Hc].
  destruct (jaeger.ack ex) as [d|].
  - destruct (clock w + Z.max 0 d <? t) eqn:E; do 2 eexists; (split; [reflexivity |]); split;
      try (eapply quiet_trans; [exact Hq | apply set_clock_quiet]); simpl; lia.
  - do 2 eexists. split; [reflexivity |]. split;
      [eapply quiet_trans; [exact Hq | apply set_clock_quiet] | simpl; lia].
Qed.

Lemma shutdown_processors_returns (sps : list tracesdk.SpanProcessor) (c : context.Context)
    (t : Z) (e : error) :
  context.done c = Some (t, e) ->
  ∀ w, ∃ r w', sdk.shutdown_processors sps c w = Returns r w' ∧
               quiet w w' ∧ clock w' ≤ Z.max (clock w) t.
Proof.
  intros Hd. induction sps as [|sp rest IH]; intros w; simpl.
  - exists None, w. split; [reflexivity |]. split; [apply quiet_refl | lia].
  - rewrite Hd. destruct (t <=? clock w) eqn:E.
    + exists (Some e), w. split; [reflexivity |]. split; [apply quiet_refl | lia].
    + unfold mbind, Go_bind.
      destruct (processor_Shutdown_returns sp c t e w Hd) as (r & w1 & -> & Hq1 & Hc1).
      destruct r as [err|].
      * exists (Some err), w1. split; [reflexivity |]. split; [exact Hq1 | exact Hc1].
      * destruct (IH w1) as (r & w2 & -> & Hq2 & Hc2).
        exists r, w2. split; [reflexivity |]. split; [by eapply quiet_trans | lia].
Qed.

(** [Run] on a service that holds a provider, for a context that is
    cancelled at [T]: it is the shutdown call made in [at_cancellation]
    with [shutdown_context], and its result. *)
Lemma Run_unfold (ots : OpentelemetryTracingService.t) (tp : tracesdk.TracerProvider)
    (c : context.Context) (T : Z) (e : error) (w : World) :
  OpentelemetryTracingService.tracerProvider ots = Some tp ->
  context.done c = Some (T, e) ->
  OpentelemetryTracingService.Run ots c w
    = sdk.Shutdown tp (shutdown_context (Z.max (clock w) T)) (at_cancellation T w).
Proof.
  intros Htp Hd.
  unfold OpentelemetryTracingService.Run, mbind, Go_bind, ctx.await_Done.
  rewrite Hd, Htp. simpl.
  fold (shutdown_context (Z.max (clock w) T)). fold (at_cancellation T w).
  destruct (sdk.Shutdown tp _ _) as [[err|] w'| |]; reflexivity.
Qed.

Lemma Shutdown_returns (tp : tracesdk.TracerProvider) (now : Z) (w : World) :
  ∃ r w', sdk.Shutdown tp (shutdown_context now) w = Returns r w' ∧
          GlobalTracer w' = GlobalTracer w ∧
          provider w' = provider w ∧
          recorded w' = recorded w ∧
          shutdowns w' = shutdowns w ++ [mkShutdownCall tp (shutdown_context now) (clock w)] ∧
          (queue w = [] -> queue w' = [] ∧ exported w' = exported w) ∧
          clock w' ≤ Z.max (clock w) (now + time.Second * 5).
Proof.
  unfold sdk.Shutdown.
  destruct (shutdown_processors_returns (tracesdk.spanProcessors tp) (shutdown_context now)
              (now + time.Second * 5) DeadlineExceeded eq_refl
              (add_shutdown (mkShutdownCall tp (shutdown_context now) (clock w)) w))
    as (r & w' & -> & (H1 & H2 & H3 & H4 & H5) & Hc).
  exists r, w'. split; [reflexivity |]. simpl in *.
  repeat (split; [assumption |]). exact Hc.
Qed.


(** C4.  On a service that holds a provider, [Run] blocks for ever on
    a context that is never cancelled.  On a context cancelled at [T] it
    returns, having called the provider's shutdown once the clock has
    reached [T], not before, with a context built from the background
    context alone: its deadline lies exactly five seconds after the call
    and reports [DeadlineExceeded], whatever the cancelled context
    carries.  [Run] is back no later than that deadline. *)
Theorem Run_shuts_down_after_cancellation
    (ots : OpentelemetryTracingService.t) (tp : tracesdk.TracerProvider)
    (c : context.Context) (w : World) :
  OpentelemetryTracingService.tracerProvider ots = Some tp ->
  (context.done c = None -> OpentelemetryTracingService.Run ots c w = Blocks) ∧
  (∀ T e, context.done c = Some (T, e) ->
     let now := Z.max (clock w) T in
     ∃ r w',
       OpentelemetryTracingService.Run ots c w = Returns r w' ∧
       shutdowns w' = shutdowns w ++ [mkShutdownCall tp (shutdown_context now) now] ∧
       shutdown_context now
         = context.mkContext (Some (now + 5 * time.Second, DeadlineExceeded)) None None ∧
       T ≤ now ∧
       clock w' ≤ now + 5 * time.Second).
Proof.
  intros Htp. split.
  - intros Hd.
    unfold OpentelemetryTracingService.Run, mbind, Go_bind, ctx.await_Done.
    by rewrite Hd.
  - intros T e Hd now.
    rewrite (Run_unfold ots tp c T e w Htp Hd).
    destruct (Shutdown_returns tp now (at_cancellation T w))
      as (r & w' & Hrun & _ & _ & _ & Hsd & _ & Hclock).
    exists r, w'. simpl in Hsd, Hclock. fold now in Hsd, Hclock.
    split; [exact Hrun |]. split; [exact Hsd |].
    split; [unfold shutdown_context; do 3 f_equal; lia |].
    split; [subst now; lia |]. unfold time.Second in *. lia.
Qed.

Lemma Run_shuts_down_after_cancellation_witness :
  (context.done context.Background = None ->
   OpentelemetryTracingService.Run (sample.running_service sample.silent_exporter)
     context.Background initial_world = Blocks) ∧
  ∃ r w',
    OpentelemetryTracingService.Run (sample.running_service sample.silent_exporter)
      sample.cancelled initial_world = Returns r w' ∧
    shutdowns w'
      = [mkShutdownCall (sample.provider_of sample.silent_exporter) (shutdown_context 50) 50] ∧
    shutdown_context 50
      = context.mkContext (Some (50 + 5 * time.Second, DeadlineExceeded)) None None ∧
    50 ≤ 50 ∧
    clock w' ≤ 50 + 5 * time.Second.
Proof.
  split.
  - exact (proj1 (Run_shuts_down_after_cancellation
                    (sample.running_service sample.silent_exporter)
                    (sample.provider_of sample.silent_exporter)
                    context.Background initial_world eq_refl)).
  - exact (proj2 (Run_shuts_down_after_cancellation
                    (sample.running_service sample.silent_exporter)
                    (sample.provider_of sample.silent_exporter)
                    sample.cancelled initial_world eq_refl) 50 Canceled eq_refl).
Defined.




(** The three exporters of the samples: a prompt one gives nil, one that
    never comes back gives the deadline error after five seconds, and
    one that reports a failure of its own gives nil as well, the failure
    being left to the error handler. *)
Example Run_on_sample_exporters :
  (∃ w', OpentelemetryTracingService.Run (sample.running_service sample.prompt_exporter)
           sample.cancelled initial_world = Returns None w' ∧ clock w' = 50 + 1000000) ∧
  (∃ w', OpentelemetryTracingService.Run (sample.running_service sample.silent_exporter)
           sample.cancelled initial_world = Returns (Some DeadlineExceeded) w' ∧
         clock w' = 50 + 5 * time.Second) ∧
  (∃ w', OpentelemetryTracingService.Run (sample.running_service sample.failing_exporter)
           sample.cancelled initial_world = Returns None w').
Proof. repeat split; eexists; try split; reflexivity. Qed.

(** Without a provider in the service, [Run] cannot shut anything
    down: the call through the nil pointer panics. *)
Example Run_without_provider_panics :
  OpentelemetryTracingService.Run (sample.service (sample.cfg "true"))
    sample.cancelled initial_world = Panics nil_dereference.
Proof. reflexivity. Qed.

(** ** Installing the tracer *)

Section disabled.

Lemma inert_Start (ts : OpentelemetryTracingService.t) (c : context.Context)
    (spanName : string) (opts : list trace.SpanStartOption) (w : World) :
  inert w ->
  let s := trace.nonRecordingSpan (active_identity c) in
  OpentelemetryTracingService.Start ts c spanName opts w
    = Returns (ctx.ContextWithSpan c s, Span_Opentelemetry (OpentelemetrySpan.mk (Some s))) w.
Proof.
  intros [[n Ht] (Hp & _)]. rewrite Start_unfold, Ht. unfold tracer.Start. by rewrite Hp.
Qed.

(** An inert span ignores every call, in every state. *)
Lemma noop_span_ignores_calls (sc : option trace.SpanID) (w : World) :
  let s := Span_Opentelemetry (OpentelemetrySpan.mk (Some (trace.nonRecordingSpan sc))) in
  Span.End s w = Returns tt w ∧ ∀ kv, Span.SetAttributes s kv w = Returns tt w.
Proof. split; reflexivity. Qed.

Lemma inert_set_legacy_spans (m : gmap nat opentracing.SpanRecord) (w : World) :
  inert w -> inert (set_legacy_spans m w).
Proof. unfold inert, at_startup. simpl. tauto. Qed.

Lemma inert_add_legacy_call (k : opentracing.Call) (w : World) :
  inert w -> inert (add_legacy_call k w).
Proof. unfold inert, at_startup. simpl. tauto. Qed.

Lemma inert_legacy_SetAttributes (o : OpentracingSpan.t) (kv : list attribute.KeyValue) :
  ∀ i w w',
    inert w ->
    range_from i kv
      (λ k v, match OpentracingSpan.span o with
              | Some sp => legacy.SetTag sp (fmt.Sprint_int k) (any_KeyValue v)
              | None => panic nil_dereference
              end) w = Returns tt w' ->
    inert w'.
Proof.
  induction kv as [|p rest IH]; intros i w w' Hw; simpl.
  - intros [= <-]. exact Hw.
  - unfold mbind, Go_bind. destruct (OpentracingSpan.span o) as [sp|]; [| discriminate].
    simpl. apply IH. by apply inert_add_legacy_call.
Qed.

Lemma inert_SetAttributes (s : Span) (kv : list attribute.KeyValue) (w w' : World) :
  inert w -> Span.SetAttributes s kv w = Returns tt w' -> inert w'.
Proof.
  intros Hw. destruct s as [[sp]|o]; simpl.
  - destruct sp as [[sc|id]|]; unfold OpentelemetrySpan.SetAttributes, sdk.SetAttributes;
      simpl; try discriminate.
    + intros [= <-]. exact Hw.
    + pose proof Hw as [_ (_ & Hr & _)]. rewrite Hr, lookup_empty.
      intros [= <-]. exact Hw.
  - apply inert_legacy_SetAttributes. exact Hw.
Qed.

Lemma inert_End (s : Span) (w w' : World) :
  inert w -> Span.End s w = Returns tt w' -> inert w'.
Proof.
  intros Hw. destruct s as [[sp]|[sp]]; simpl.
  - destruct sp as [[sc|id]|]; unfold OpentelemetrySpan.End, sdk.End;
      simpl; try discriminate.
    + intros [= <-]. exact Hw.
    + pose proof Hw as [_ (_ & Hr & _)]. rewrite Hr, lookup_empty.
      intros [= <-]. exact Hw.
  - destruct sp as [sp|]; simpl; [| discriminate].
    intros [= <-]. by apply inert_add_legacy_call.
Qed.

Lemma inert_Run (ots : OpentelemetryTracingService.t) (c : context.Context)
    (r : option error) (w w' : World) :
  inert w -> OpentelemetryTracingService.Run ots c w = Returns r w' -> inert w'.
Proof.
  intros Hw Hrun.
  destruct (context.done c) as [[T e]|] eqn:Hd; cycle 1.
  { unfold OpentelemetryTracingService.Run, mbind, Go_bind, ctx.await_Done in Hrun.
    by rewrite Hd in Hrun. }
  destruct (OpentelemetryTracingService.tracerProvider ots) as [tp|] eqn:Htp; cycle 1.
  { unfold OpentelemetryTracingService.Run, mbind, Go_bind, ctx.await_Done in Hrun.
    rewrite Hd, Htp in Hrun. discriminate. }
  rewrite (Run_unfold ots tp c T e w Htp Hd) in Hrun.
  destruct (Shutdown_returns tp (Z.max (clock w) T) (at_cancellation T w))
    as (r' & w2 & Hs & Ht & Hp & Hr & _ & Hq & _).
  rewrite Hs in Hrun. injection Hrun as <- <-.
  destruct Hw as [[n Hn] (Hp0 & Hr0 & Hq0 & He0)]. simpl in *.
  destruct (Hq Hq0) as [Hq2 He2].
  split; [exists n; congruence |]. repeat split; congruence.
Qed.

(** Whatever the process does afterwards, the pipeline stays as a
    disabled service left it. *)
Lemma activity_keeps_inert (w w' : World) : inert w -> rtc activity w w' -> inert w'.
Proof.
  intros Hw Hsteps. induction Hsteps as [w|w w1 w2 Hstep _ IH]; [exact Hw |].
  apply IH. clear IH. destruct Hstep as
    [ts c n opts r w w' H|ts c n opts r w w' H|s kv w w' H|s w w' H|w w' H|ots c r w w' H].
  - rewrite (inert_Start ts c n opts w Hw) in H. by injection H as _ <-.
  - unfold TracingService.Start, mbind, Go_bind, legacy.StartSpanFromContext in H.
    destruct (legacy_tracer w); simpl in H; injection H as _ <-;
      [exact Hw | by apply inert_set_legacy_spans].
  - by eapply inert_SetAttributes.
  - by eapply inert_End.
  - unfold sdk.tick, modify, sdk.flush in H. destruct Hw as [Ht (Hp & Hr & Hq & He)].
    rewrite Hq in H. injection H as <-. repeat split; assumption.
  - by eapply inert_Run.
Qed.

End disabled.

Lemma initOpentelemetryTracer_unfold `{jaeger.Lib} (ots : OpentelemetryTracingService.t)
    (w : World) :
  OpentelemetryTracingService.initOpentelemetryTracer ots w =
  match OpentelemetryTracingService.initTracerProvider ots with
  | inr err => Returns (Some err) w
  | inl tp =>
      if OpentelemetryTracingService.enabled ots
      then Returns None
             (set_GlobalTracer (Some (trace.sdkTracer tp "component-main"))
                (set_provider (Some tp) w))
      else Returns None
             (set_GlobalTracer
                (Some (trace.Tracer_ (match provider w with
                                      | Some p => trace.sdkProvider p
                                      | None => trace.defaultProvider
                                      end) "component-main")) w)
  end.
Proof.
  unfold OpentelemetryTracingService.initOpentelemetryTracer.
  destruct (OpentelemetryTracingService.initTracerProvider ots) as [tp|err]; [| reflexivity].
  destruct (OpentelemetryTracingService.enabled ots);
    unfold mbind, Go_bind, otel.GetTracerProvider; simpl; [reflexivity |].
  by destruct (provider w).
Qed.

(** A failed initialisation leaves the package variable as it was. *)
Lemma initOpentelemetryTracer_failure `{jaeger.Lib} (ots : OpentelemetryTracingService.t)
    (w w' : World) (err : error) :
  OpentelemetryTracingService.initOpentelemetryTracer ots w = Returns (Some err) w' ->
  w' = w ∧ OpentelemetryTracingService.initTracerProvider ots = inr err.
Proof.
  rewrite initOpentelemetryTracer_unfold.
  destruct (OpentelemetryTracingService.initTracerProvider ots) as [tp|e].
  - by destruct (OpentelemetryTracingService.enabled ots).
  - by intros [= -> ->].
Qed.

(** C3, as amended.  Let initialisation succeed.  If the service is
    enabled, the provider built by [initTracerProvider] is registered
    and [GlobalTracer] is the tracer named "component-main" of that very
    provider.  If the service is disabled and no provider was registered
    before (the process is at start-up), [GlobalTracer] is still set, to
    the tracer of the default provider, and from then on, as long as the
    process only starts, annotates and ends spans, lets the batch timer
    fire and runs the shutdown task, no batch is exported and every
    [Start] returns an inert span: a non-nil adapter on which [End] and
    [SetAttributes] return and change nothing. *)
Theorem initOpentelemetryTracer_sets_GlobalTracer `{jaeger.Lib}
    (ots : OpentelemetryTracingService.t) (w w' : World) :
  OpentelemetryTracingService.initOpentelemetryTracer ots w = Returns None w' ->
  (OpentelemetryTracingService.enabled ots = true ->
     ∃ tp, OpentelemetryTracingService.initTracerProvider ots = inl tp ∧
           provider w' = Some tp ∧
           GlobalTracer w' = Some (trace.sdkTracer tp "component-main")) ∧
  (OpentelemetryTracingService.enabled ots = false -> at_startup w ->
     GlobalTracer w' = Some (trace.delegatingTracer "component-main") ∧
     ∀ w2, rtc activity w' w2 ->
       exported w2 = [] ∧
       ∀ ts c spanName opts,
         ∃ c' s, OpentelemetryTracingService.Start ts c spanName opts w2
                   = Returns (c', s) w2 ∧
                 is_noop s ∧
                 (∀ w3, Span.End s w3 = Returns tt w3) ∧
                 (∀ kv w3, Span.SetAttributes s kv w3 = Returns tt w3)).
Proof.
  rewrite initOpentelemetryTracer_unfold.
  destruct (OpentelemetryTracingService.initTracerProvider ots) as [tp|err]; [| discriminate].
  destruct (OpentelemetryTracingService.enabled ots); intros [= <-]; split; try discriminate.
  - intros _. exists tp. repeat split.
  - intros _ Hstart. pose proof Hstart as (Hp & Hr & Hq & He).
    rewrite Hp. simpl. split; [reflexivity |].
    intros w2 Hsteps.
    assert (inert w2) as Hw2.
    { eapply activity_keeps_inert; [| exact Hsteps].
      split; [by eexists | exact Hstart]. }
    split; [apply Hw2 |].
    intros ts c spanName opts. do 2 eexists.
    split; [apply (inert_Start ts c spanName opts w2 Hw2) |].
    split; [by eexists |].
    split; [intros w3 | intros kv w3]; reflexivity.
Qed.

Lemma initOpentelemetryTracer_sets_GlobalTracer_witness :
  (∃ tp, @OpentelemetryTracingService.initTracerProvider sample.working_jaeger
           (OpentelemetryTracingService.set_enabled true (sample.service (sample.cfg "true")))
           = inl tp ∧
         provider (set_GlobalTracer
                     (Some (trace.sdkTracer (sample.running_service_provider)
                              "component-main"))
                     (set_provider (Some sample.running_service_provider) initial_world))
           = Some tp ∧
         GlobalTracer (set_GlobalTracer
                         (Some (trace.sdkTracer (sample.running_service_provider)
                                  "component-main"))
                         (set_provider (Some sample.running_service_provider) initial_world))
           = Some (trace.sdkTracer tp "component-main")) ∧
  (GlobalTracer (set_GlobalTracer (Some (trace.delegatingTracer "component-main"))
                   initial_world)
     = Some (trace.delegatingTracer "component-main") ∧
   ∀ w2, rtc activity (set_GlobalTracer (Some (trace.delegatingTracer "component-main"))
                         initial_world) w2 ->
     exported w2 = [] ∧
     ∀ ts c spanName opts,
       ∃ c' s, OpentelemetryTracingService.Start ts c spanName opts w2
                 = Returns (c', s) w2 ∧
               is_noop s ∧
               (∀ w3, Span.End s w3 = Returns tt w3) ∧
               (∀ kv w3, Span.SetAttributes s kv w3 = Returns tt w3)).
Proof.
  split.
  - exact (proj1 (@initOpentelemetryTracer_sets_GlobalTracer sample.working_jaeger
                    (OpentelemetryTracingService.set_enabled true
                       (sample.service (sample.cfg "true")))
                    initial_world _ eq_refl) eq_refl).
  - exact (proj2 (@initOpentelemetryTracer_sets_GlobalTracer sample.working_jaeger
                    (sample.service (sample.cfg "false"))
                    initial_world _ eq_refl) eq_refl
                 (conj eq_refl (conj eq_refl (conj eq_refl eq_refl)))).
Defined.

(** C3, as stated, fails when a provider is registered before the
    disabled service is initialised, here by an enabled service
    initialised earlier in the same process.  The disabled
    initialisation succeeds and sets [GlobalTracer] to the tracer of the
    provider registered earlier; [Start] then returns a recorded span,
    not an inert one, and once that span has ended the next firing of
    the batch timer exports a batch. *)
Lemma disabled_after_enabled_initialisation_exports :
  let enabled_service :=
    OpentelemetryTracingService.set_enabled true (sample.service (sample.cfg "true")) in
  let disabled_service := sample.service (sample.cfg "false") in
  OpentelemetryTracingService.enabled disabled_service = false ∧
  ∃ w1 w2 c s w3 w4 w5,
    @OpentelemetryTracingService.initOpentelemetryTracer sample.working_jaeger
      enabled_service initial_world = Returns None w1 ∧
    @OpentelemetryTracingService.initOpentelemetryTracer sample.working_jaeger
      disabled_service w1 = Returns None w2 ∧
    GlobalTracer w2
      = Some (trace.sdkTracer sample.running_service_provider "component-main") ∧
    OpentelemetryTracingService.Start disabled_service context.Background "op" [] w2
      = Returns (c, s) w3 ∧
    ¬ is_noop s ∧
    is_recorded w3 s ∧
    Span.End s w3 = Returns tt w4 ∧
    sdk.tick w4 = Returns tt w5 ∧
    exported w5 ≠ [] ∧
    rtc activity w2 w5.
Proof.
  simpl. split; [reflexivity |]. do 7 eexists.
  split; [reflexivity |]. split; [reflexivity |]. split; [reflexivity |].
  split; [reflexivity |]. split; [by intros [sc [=]] |].
  split; [by eexists |]. split; [reflexivity |]. split; [reflexivity |].
  split; [discriminate |].
  eapply rtc_l; [eapply (act_Start (sample.service (sample.cfg "false"))
                           context.Background "op" []); reflexivity |].
  eapply rtc_l;
    [eapply (act_End (Span_Opentelemetry
                        (OpentelemetrySpan.mk (Some (trace.recordingSpan 0%nat)))));
     reflexivity |].
  eapply rtc_l; [eapply act_tick; reflexivity |].
  apply rtc_refl.
Qed.

(** ** Parent and child *)

(** What the SDK records for a span it starts. *)
Lemma sdk_Start_records (c : context.Context) (spanName : string) (w : World) :
  let id := fresh (dom (recorded w)) in
  sdk.Start c spanName [] w
    = Returns (ctx.ContextWithSpan c (trace.recordingSpan id), trace.recordingSpan id)
              (set_recorded
                 (<[id := mkSdkSpan spanName (active_identity c) [] false]> (recorded w)) w) ∧
  id ∉ dom (recorded w).
Proof. split; [reflexivity | apply is_fresh]. Qed.

Lemma recording_tracer_Start (t : trace.Tracer) (c : context.Context) (spanName : string)
    (w : World) :
  records_spans w t -> tracer.Start t c spanName [] w = sdk.Start c spanName [] w.
Proof.
  destruct t as [n|tp n]; unfold tracer.Start; [| reflexivity].
  simpl. by intros [p ->].
Qed.

(** C8, as amended.  When the tracer behind [GlobalTracer] records
    through a provider, [Start] returns a span that was not recorded
    before, whose recorded parent is the identity of the active span of
    the context (none, hence a root span, when the context has no active
    span), and the returned context carries the new span as its active
    span.  The same holds for the legacy [Start] when a tracer is
    registered. *)
Theorem Start_records_active_span_as_parent :
  (∀ (ts : OpentelemetryTracingService.t) (c : context.Context) (spanName : string)
     (opts : list trace.SpanStartOption) (w : World) (t : trace.Tracer),
     GlobalTracer w = Some t -> records_spans w t ->
     ∃ id w',
       let s := Span_Opentelemetry (OpentelemetrySpan.mk (Some (trace.recordingSpan id))) in
       OpentelemetryTracingService.Start ts c spanName opts w
         = Returns (ctx.ContextWithSpan c (trace.recordingSpan id), s) w' ∧
       context.span (ctx.ContextWithSpan c (trace.recordingSpan id))
         = Some (trace.recordingSpan id) ∧
       (id ∉ dom (recorded w)) ∧
       is_recorded w' s ∧
       recorded_parent w' s = active_identity c) ∧
  (∀ (T : Type) (ts : T) (c : context.Context) (spanName : string)
     (opts : list trace.SpanStartOption) (w : World),
     legacy_tracer w = opentracing.RegisteredTracer ->
     ∃ id w',
       let s := Span_Opentracing (OpentracingSpan.mk (Some (opentracing.tracedSpan id))) in
       TracingService.Start ts c spanName opts w
         = Returns (ctx.ContextWithLegacySpan c (opentracing.tracedSpan id), s) w' ∧
       context.legacy_span (ctx.ContextWithLegacySpan c (opentracing.tracedSpan id))
         = Some (opentracing.tracedSpan id) ∧
       (id ∉ dom (legacy_spans w)) ∧
       is_recorded w' s ∧
       recorded_parent w' s = legacy_identity (context.legacy_span c)).
Proof.
  split.
  - intros ts c spanName opts w t Ht Hrec.
    rewrite Start_unfold, Ht, (recording_tracer_Start t c spanName w Hrec).
    destruct (sdk_Start_records c spanName w) as [-> Hfresh].
    do 2 eexists. split; [reflexivity |]. split; [reflexivity |].
    split; [exact Hfresh |]. simpl. rewrite lookup_insert_eq. split; [by eexists | reflexivity].
  - intros T ts c spanName opts w Hreg.
    unfold TracingService.Start, mbind, Go_bind, legacy.StartSpanFromContext.
    rewrite Hreg. simpl.
    do 2 eexists. split; [reflexivity |]. split; [reflexivity |].
    split; [apply is_fresh |]. simpl. rewrite lookup_insert_eq. split; [by eexists |].
    simpl. by destruct (context.legacy_span c) as [[|i]|].
Qed.

Lemma Start_records_active_span_as_parent_witness :
  (∃ id w',
     let s := Span_Opentelemetry (OpentelemetrySpan.mk (Some (trace.recordingSpan id))) in
     OpentelemetryTracingService.Start (sample.running_service sample.prompt_exporter)
       sample.within_span_7 "op" []
       (set_GlobalTracer (Some (trace.sdkTracer sample.running_service_provider
                                  "component-main")) initial_world)
       = Returns (ctx.ContextWithSpan sample.within_span_7 (trace.recordingSpan id), s) w' ∧
     context.span (ctx.ContextWithSpan sample.within_span_7 (trace.recordingSpan id))
       = Some (trace.recordingSpan id) ∧
     (id ∉ dom (recorded (set_GlobalTracer
                            (Some (trace.sdkTracer sample.running_service_provider
                                     "component-main")) initial_world))) ∧
     is_recorded w' s ∧
     recorded_parent w' s = active_identity sample.within_span_7) ∧
  active_identity sample.within_span_7 = Some 7%nat.
Proof.
  split; [| reflexivity].
  exact (proj1 Start_records_active_span_as_parent
           (sample.running_service sample.prompt_exporter) sample.within_span_7 "op" []
           (set_GlobalTracer (Some (trace.sdkTracer sample.running_service_provider
                                      "component-main")) initial_world)
           (trace.sdkTracer sample.running_service_provider "component-main")
           eq_refl I).
Defined.

(** C8, as stated, fails for a disabled service.  After its
    initialisation, [Start] from a context whose active span is 7
    returns an inert span: nothing is recorded for it, so it has no
    recorded parent, and in particular not 7.  The legacy [Start]
    behaves alike while no legacy tracer is registered. *)
Lemma Start_disabled_records_no_parent :
  ∃ w,
    @OpentelemetryTracingService.initOpentelemetryTracer sample.working_jaeger
      (sample.service (sample.cfg "false")) initial_world = Returns None w ∧
    active_identity sample.within_span_7 = Some 7%nat ∧
    (∃ c' s, OpentelemetryTracingService.Start (sample.service (sample.cfg "false"))
               sample.within_span_7 "op" [] w = Returns (c', s) w ∧
             ¬ is_recorded w s ∧
             recorded_parent w s ≠ Some 7%nat) ∧
    (∃ c' s, TracingService.Start tt sample.within_span_7 "op" [] w = Returns (c', s) w ∧
             ¬ is_recorded w s ∧
             recorded_parent w s ≠ Some 7%nat).
Proof.
  eexists. split; [reflexivity |]. split; [reflexivity |].
  split.
  - do 2 eexists. split; [reflexivity |]. simpl. split; [tauto | discriminate].
  - do 2 eexists. split; [reflexivity |]. simpl. split; [tauto | discriminate].
Qed.

(** * Further properties of the package *)

(** ** Tags of the legacy adapter *)

Lemma tags_by_position_lookup (sp : opentracing.Span) (kv : list attribute.KeyValue) :
  ∀ (z : Z) (i : nat) (p : attribute.KeyValue),
    kv !! i = Some p ->
    tags_by_position sp z kv !! i
      = Some (opentracing.SetTag sp (fmt.Sprint_int (z + Z.of_nat i)) (any_KeyValue p)).
Proof.
  induction kv as [|x rest IH]; intros z i p; [done |].
  destruct i as [|i]; simpl.
  - intros [= ->]. by rewrite Z.add_0_r.
  - intros Hi. rewrite (IH (z + 1) i p Hi). do 3 f_equal. lia.
Qed.

Lemma tags_by_position_app (sp : opentracing.Span) (a b : list attribute.KeyValue) :
  ∀ z, tags_by_position sp z (a ++ b)
       = tags_by_position sp z a ++ tags_by_position sp (z + Z.of_nat (length a)) b.
Proof.
  induction a as [|x rest IH]; intros z; simpl.
  - by rewrite Z.add_0_r.
  - rewrite IH. do 3 f_equal. lia.
Qed.

Lemma tags_by_position_keys (sp : opentracing.Span) (kv : list attribute.KeyValue) :
  ∀ z k, k ∈ omap tag_key (tags_by_position sp z kv) ->
         ∃ z', z ≤ z' ∧ k = fmt.Sprint_int z'.
Proof.
  induction kv as [|x rest IH]; intros z k; simpl.
  - by intros ?%elem_of_nil.
  - intros [->|Hin]%elem_of_cons.
    + exists z. split; [lia | reflexivity].
    + destruct (IH (z + 1) k Hin) as (z' & Hz & ->). exists z'. split; [lia | reflexivity].
Qed.

Lemma tags_by_position_NoDup (sp : opentracing.Span) (kv : list attribute.KeyValue) :
  ∀ z, NoDup (omap tag_key (tags_by_position sp z kv)).
Proof.
  induction kv as [|x rest IH]; intros z; simpl; [constructor |].
  constructor; [| apply IH].
  intros (z' & Hz & Heq)%tags_by_position_keys.
  apply (inj pretty) in Heq. lia.
Qed.

Lemma tags_by_position_start (sp : opentracing.Span) (q : attribute.KeyValue)
    (rest : list attribute.KeyValue) (z1 z2 : Z) :
  tags_by_position sp z1 (q :: rest) = tags_by_position sp z2 (q :: rest) -> z1 = z2.
Proof.
  cbn [tags_by_position]. intros Heq. injection Heq as Hkey _.
  by apply (inj pretty) in Hkey.
Qed.

(** X1.  On a non-nil legacy span, [SetAttributes] returns and leaves
    the calls the span had received in place; after them come exactly
    as many tag calls as there are pairs, and the call for the pair at
    position [i] is keyed by the decimal form of [i] and holds that
    pair. *)
Theorem OpentracingSpan_SetAttributes_tag_at_position
    (sp : opentracing.Span) (kv : list attribute.KeyValue) (w : World) :
  ∃ w',
    OpentracingSpan.SetAttributes (OpentracingSpan.mk (Some sp)) kv w = Returns tt w' ∧
    length (legacy_calls w') = (length (legacy_calls w) + length kv)%nat ∧
    (∀ j c, legacy_calls w !! j = Some c -> legacy_calls w' !! j = Some c) ∧
    (∀ i p, kv !! i = Some p ->
            legacy_calls w' !! (length (legacy_calls w) + i)%nat
              = Some (opentracing.SetTag sp (fmt.Sprint_int (Z.of_nat i)) (any_KeyValue p))).
Proof.
  destruct (OpentracingSpan_SetAttributes_calls sp kv w) as (w' & Hrun & Hcalls).
  exists w'. split; [exact Hrun |]. rewrite Hcalls. split; [| split].
  - by rewrite length_app, tags_by_position_length.
  - intros j c Hj. by apply lookup_app_l_Some.
  - intros i p Hi. rewrite lookup_app_r by lia.
    replace (length (legacy_calls w) + i - length (legacy_calls w))%nat with i by lia.
    by rewrite (tags_by_position_lookup sp kv 0 i p Hi).
Qed.

Lemma OpentracingSpan_SetAttributes_tag_at_position_witness :
  ∃ w',
    OpentracingSpan.SetAttributes (OpentracingSpan.mk (Some (opentracing.tracedSpan 1)))
      [attribute.String "a" "x"; attribute.Int "b" 2] initial_world = Returns tt w' ∧
    legacy_calls w' !! 1%nat
      = Some (opentracing.SetTag (opentracing.tracedSpan 1) "1"
                (any_KeyValue (attribute.Int "b" 2))).
Proof.
  destruct (OpentracingSpan_SetAttributes_tag_at_position (opentracing.tracedSpan 1)
              [attribute.String "a" "x"; attribute.Int "b" 2] initial_world)
    as (w' & Hrun & _ & _ & Hat).
  exists w'. split; [exact Hrun |].
  exact (Hat 1%nat (attribute.Int "b" 2) eq_refl).
Defined.

(** X2.  The tags of one [SetAttributes] call on a legacy span have
    pairwise distinct keys, whatever the keys of the pairs: pairs that
    share an attribute key still get different tags. *)
Theorem OpentracingSpan_SetAttributes_keys_distinct
    (sp : opentracing.Span) (kv : list attribute.KeyValue) (w : World) :
  ∃ new w',
    OpentracingSpan.SetAttributes (OpentracingSpan.mk (Some sp)) kv w = Returns tt w' ∧
    legacy_calls w' = legacy_calls w ++ new ∧
    length (omap tag_key new) = length kv ∧
    NoDup (omap tag_key new).
Proof.
  destruct (OpentracingSpan_SetAttributes_calls sp kv w) as (w' & Hrun & Hcalls).
  exists (tags_by_position sp 0 kv), w'. split; [exact Hrun |]. split; [exact Hcalls |].
  split; [| apply tags_by_position_NoDup].
  clear Hrun Hcalls. generalize 0.
  induction kv as [|x rest IH]; intros z; simpl; [done | by rewrite IH].
Qed.

(** X3.  Positions are counted afresh in every call.  After two calls
    with non-empty lists the span has received the key ["0"] twice, once
    for the head of each list, so the second call reuses the keys of
    the first.  One call with both lists appended does not: it sends
    different tags. *)
Theorem OpentracingSpan_SetAttributes_restarts_positions
    (sp : opentracing.Span) (p q : attribute.KeyValue) (r1 r2 : list attribute.KeyValue)
    (w : World) :
  let s := OpentracingSpan.mk (Some sp) in
  ∃ w1 w2 w3,
    OpentracingSpan.SetAttributes s (p :: r1) w = Returns tt w1 ∧
    OpentracingSpan.SetAttributes s (q :: r2) w1 = Returns tt w2 ∧
    legacy_calls w2 !! length (legacy_calls w)
      = Some (opentracing.SetTag sp "0" (any_KeyValue p)) ∧
    legacy_calls w2 !! (length (legacy_calls w) + S (length r1))%nat
      = Some (opentracing.SetTag sp "0" (any_KeyValue q)) ∧
    OpentracingSpan.SetAttributes s ((p :: r1) ++ (q :: r2)) w = Returns tt w3 ∧
    legacy_calls w3 ≠ legacy_calls w2.
Proof.
  intros s.
  destruct (OpentracingSpan_SetAttributes_calls sp (p :: r1) w) as (w1 & Hrun1 & Hc1).
  destruct (OpentracingSpan_SetAttributes_calls sp (q :: r2) w1) as (w2 & Hrun2 & Hc2).
  destruct (OpentracingSpan_SetAttributes_calls sp ((p :: r1) ++ (q :: r2)) w)
    as (w3 & Hrun3 & Hc3).
  exists w1, w2, w3. split; [exact Hrun1 |]. split; [exact Hrun2 |].
  rewrite Hc2, Hc1. split; [| split; [| split; [exact Hrun3 |]]].
  - rewrite <- app_assoc, lookup_app_r by lia.
    by replace (length (legacy_calls w) - length (legacy_calls w))%nat with 0%nat by lia.
  - rewrite lookup_app_r by (rewrite length_app, tags_by_position_length; simpl; lia).
    rewrite length_app, tags_by_position_length. simpl length.
    by replace (length (legacy_calls w) + S (length r1)
                - (length (legacy_calls w) + S (length r1)))%nat with 0%nat by lia.
  - rewrite Hc3, tags_by_position_app, <- app_assoc.
    intros Heq. apply app_inv_head, app_inv_head in Heq.
    apply tags_by_position_start in Heq. simpl length in Heq. lia.
Qed.

(** ** Adapters around a nil span *)

(** X4.  The zero value of each adapter holds a nil span.  On the
    legacy adapter [SetAttributes] with no pairs returns and changes
    nothing, since the loop body is never run, while with at least one
    pair it panics; the attribute-based adapter panics even with no
    pairs, and [End] panics on both. *)
Theorem adapters_on_nil_span (kv : list attribute.KeyValue) (w : World) :
  OpentracingSpan.SetAttributes (OpentracingSpan.mk None) [] w = Returns tt w ∧
  (kv ≠ [] ->
   OpentracingSpan.SetAttributes (OpentracingSpan.mk None) kv w = Panics nil_dereference) ∧
  OpentelemetrySpan.SetAttributes (OpentelemetrySpan.mk None) kv w = Panics nil_dereference ∧
  OpentracingSpan.End (OpentracingSpan.mk None) w = Panics nil_dereference ∧
  OpentelemetrySpan.End (OpentelemetrySpan.mk None) w = Panics nil_dereference.
Proof.
  split; [reflexivity |]. split; [| repeat split].
  destruct kv as [|p rest]; [done |]. intros _. reflexivity.
Qed.

Lemma adapters_on_nil_span_witness :
  OpentracingSpan.SetAttributes (OpentracingSpan.mk None) [attribute.String "a" "x"]
    initial_world = Panics nil_dereference.
Proof.
  apply (proj1 (proj2 (adapters_on_nil_span [attribute.String "a" "x"] initial_world))).
  discriminate.
Defined.

(** ** Ending a legacy span *)

(** X5.  The legacy adapter forwards every [End]: ending the same
    non-nil span [n] times makes the span receive [n] finish calls, one
    after the other, after what it had received before. *)
Theorem OpentracingSpan_End_forwards_every_call (sp : opentracing.Span) (n : nat) :
  ∀ w, ∃ w',
    times n (OpentracingSpan.End (OpentracingSpan.mk (Some sp))) w = Returns tt w' ∧
    legacy_calls w' = legacy_calls w ++ replicate n (opentracing.Finish sp).
Proof.
  induction n as [|n IH]; intros w; simpl.
  - exists w. split; [reflexivity | by rewrite app_nil_r].
  - unfold mbind, Go_bind. simpl.
    destruct (IH (add_legacy_call (opentracing.Finish sp) w)) as (w' & Hrun & Hcalls).
    exists w'. split; [exact Hrun |]. rewrite Hcalls. simpl. by rewrite <- app_assoc.
Qed.

(** ** The legacy [Start] *)

(** X6.  The legacy [Start] does not go through [GlobalTracer]: in
    every state, also before any initialisation, it returns a context
    that differs from the given one only in its legacy span, and an
    adapter around that non-nil span.  The options play no part, and
    the call leaves [GlobalTracer], the provider, the recorded spans, the
    pipeline and the calls received by legacy spans as they were. *)
Theorem TracingService_Start_returns_in_every_state
    (T : Type) (ts : T) (c : context.Context) (spanName : string)
    (opts : list trace.SpanStartOption) (w : World) :
  ∃ sp w',
    TracingService.Start ts c spanName opts w
      = Returns (ctx.ContextWithLegacySpan c sp,
                 Span_Opentracing (OpentracingSpan.mk (Some sp))) w' ∧
    TracingService.Start ts c spanName [] w = TracingService.Start ts c spanName opts w ∧
    context.done (ctx.ContextWithLegacySpan c sp) = context.done c ∧
    context.span (ctx.ContextWithLegacySpan c sp) = context.span c ∧
    GlobalTracer w' = GlobalTracer w ∧
    provider w' = provider w ∧
    recorded w' = recorded w ∧
    queue w' = queue w ∧
    exported w' = exported w ∧
    legacy_calls w' = legacy_calls w.
Proof.
  unfold TracingService.Start, mbind, Go_bind, legacy.StartSpanFromContext.
  destruct (legacy_tracer w); simpl; do 2 eexists; (split; [reflexivity |]); repeat split.
Qed.

(** ** Spans started through a recording tracer *)

Lemma Start_recording (ts : OpentelemetryTracingService.t) (c : context.Context)
    (spanName : string) (opts : list trace.SpanStartOption) (w : World) (t : trace.Tracer) :
  GlobalTracer w = Some t -> records_spans w t ->
  let id := fresh (dom (recorded w)) in
  OpentelemetryTracingService.Start ts c spanName opts w
    = Returns (ctx.ContextWithSpan c (trace.recordingSpan id),
               Span_Opentelemetry (OpentelemetrySpan.mk (Some (trace.recordingSpan id))))
              (set_recorded
                 (<[id := mkSdkSpan spanName (active_identity c) [] false]> (recorded w)) w).
Proof.
  intros Ht Hrec. simpl.
  rewrite Start_unfold, Ht, (recording_tracer_Start t c spanName w Hrec).
  by destruct (sdk_Start_records c spanName w) as [-> _].
Qed.

Lemma records_spans_set_recorded (m : gmap nat SdkSpan) (w : World) (t : trace.Tracer) :
  records_spans w t -> records_spans (set_recorded m w) t.
Proof. by destruct t. Qed.

Lemma live_span_SetAttributes (id : nat) (r : SdkSpan) (kv : list attribute.KeyValue)
    (w : World) :
  recorded w !! id = Some r -> sdk_ended r = false ->
  Span.SetAttributes
    (Span_Opentelemetry (OpentelemetrySpan.mk (Some (trace.recordingSpan id)))) kv w
    = Returns tt
        (set_recorded
           (<[id := mkSdkSpan (sdk_name r) (sdk_parent r)
                              (sdk.record_attributes (sdk_attributes r) kv) false]>
              (recorded w)) w).
Proof.
  intros Hr He.
  cbv [Span.SetAttributes OpentelemetrySpan.SetAttributes sdk.SetAttributes
       OpentelemetrySpan.span trace.SpanID].
  by rewrite Hr, He.
Qed.

Lemma filter_other_keys (attrs : list attribute.KeyValue) (a : attribute.KeyValue) :
  attribute.kvKey a ∉ attribute.kvKey <$> attrs ->
  filter (λ b, attribute.kvKey b ≠ attribute.kvKey a) attrs = attrs.
Proof.
  induction attrs as [|b rest IH]; [done |].
  rewrite fmap_cons, not_elem_of_cons. intros [Hne Hrest].
  rewrite filter_cons_True by done. by rewrite IH.
Qed.

(** Valid pairs with fresh keys, within the limit, are kept as they
    come. *)
Lemma record_attributes_fresh (kv : list attribute.KeyValue) :
  ∀ attrs,
    Forall (λ p, attribute.Valid p = true) kv ->
    NoDup (attribute.kvKey <$> (attrs ++ kv)) ->
    (length (attrs ++ kv) ≤ sdk.AttributeCountLimit)%nat ->
    sdk.record_attributes attrs kv = attrs ++ kv.
Proof.
  induction kv as [|a rest IH]; intros attrs Hvalid Hnodup Hlen.
  - by rewrite app_nil_r.
  - apply Forall_cons in Hvalid as [Ha Hrest].
    unfold sdk.record_attributes. simpl. fold (sdk.record_attributes).
    assert (sdk.add_attribute attrs a = attrs ++ [a]) as ->.
    { unfold sdk.add_attribute. rewrite Ha. simpl.
      rewrite filter_other_keys.
      - assert ((sdk.AttributeCountLimit <? length (attrs ++ [a]))%nat = false) as ->; [| done].
        apply Nat.ltb_ge. rewrite !length_app in *. simpl in *. lia.
      - rewrite fmap_app, fmap_cons in Hnodup.
        apply NoDup_app in Hnodup as (_ & Hdisj & _).
        intros Hin. apply (Hdisj _ Hin). left. }
    change (fold_left sdk.add_attribute rest (attrs ++ [a]))
      with (sdk.record_attributes (attrs ++ [a]) rest).
    rewrite IH; [by rewrite <- app_assoc | exact Hrest | by rewrite <- app_assoc |
                 by rewrite <- app_assoc].
Qed.

(** X7.  Spans nest through the contexts [Start] returns.  With a
    recording tracer behind [GlobalTracer], a span started from the
    context returned by an earlier [Start] is a different span whose
    recorded parent is the earlier span, and the earlier span keeps the
    parent it was given. *)
Theorem Start_from_returned_context_nests
    (ts : OpentelemetryTracingService.t) (c : context.Context) (n1 n2 : string)
    (o1 o2 : list trace.SpanStartOption) (w : World) (t : trace.Tracer) :
  GlobalTracer w = Some t -> records_spans w t ->
  ∃ c1 s1 w1 c2 s2 w2 id1,
    OpentelemetryTracingService.Start ts c n1 o1 w = Returns (c1, s1) w1 ∧
    OpentelemetryTracingService.Start ts c1 n2 o2 w1 = Returns (c2, s2) w2 ∧
    span_identity s1 = Some id1 ∧
    span_identity s2 ≠ Some id1 ∧
    is_recorded w2 s2 ∧
    recorded_parent w2 s2 = Some id1 ∧
    recorded_parent w2 s1 = active_identity c.
Proof.
  intros Ht Hrec.
  pose proof (Start_recording ts c n1 o1 w t Ht Hrec) as H1. simpl in H1.
  set (id1 := fresh (dom (recorded w))) in *.
  set (w1 := set_recorded _ w) in H1.
  pose proof (Start_recording ts (ctx.ContextWithSpan c (trace.recordingSpan id1)) n2 o2 w1 t
                Ht (records_spans_set_recorded _ w t Hrec)) as H2. simpl in H2.
  set (id2 := fresh (dom (recorded w1))) in *.
  assert (id2 ≠ id1) as Hne.
  { intros Heq. apply (is_fresh (dom (recorded w1))). fold id2. rewrite Heq.
    subst w1. simpl. apply elem_of_dom. rewrite lookup_insert_eq. by eexists. }
  do 6 eexists. exists id1. split; [exact H1 |]. split; [exact H2 |].
  split; [reflexivity |]. split; [intros [= Heq]; exact (Hne Heq) |]. simpl.
  rewrite lookup_insert_eq. split; [by eexists |]. split; [reflexivity |].
  rewrite lookup_insert_ne by done. by rewrite lookup_insert_eq.
Qed.

Lemma Start_from_returned_context_nests_witness :
  ∃ c1 s1 w1 c2 s2 w2 id1,
    OpentelemetryTracingService.Start (sample.running_service sample.prompt_exporter)
      sample.within_span_7 "outer" []
      (set_GlobalTracer (Some (trace.delegatingTracer "component-main"))
         (set_provider (Some sample.running_service_provider) initial_world))
      = Returns (c1, s1) w1 ∧
    OpentelemetryTracingService.Start (sample.running_service sample.prompt_exporter)
      c1 "inner" [] w1 = Returns (c2, s2) w2 ∧
    span_identity s1 = Some id1 ∧
    span_identity s2 ≠ Some id1 ∧
    is_recorded w2 s2 ∧
    recorded_parent w2 s2 = Some id1 ∧
    recorded_parent w2 s1 = active_identity sample.within_span_7.
Proof.
  exact (Start_from_returned_context_nests (sample.running_service sample.prompt_exporter)
           sample.within_span_7 "outer" "inner" [] []
           (set_GlobalTracer (Some (trace.delegatingTracer "component-main"))
              (set_provider (Some sample.running_service_provider) initial_world))
           (trace.delegatingTracer "component-main") eq_refl (ex_intro _ _ eq_refl)).
Defined.

Lemma legacy_Start_registered (T : Type) (ts : T) (c : context.Context)
    (spanName : string) (opts : list trace.SpanStartOption) (w : World) :
  legacy_tracer w = opentracing.RegisteredTracer ->
  let id := fresh (dom (legacy_spans w)) in
  TracingService.Start ts c spanName opts w
    = Returns (ctx.ContextWithLegacySpan c (opentracing.tracedSpan id),
               Span_Opentracing (OpentracingSpan.mk (Some (opentracing.tracedSpan id))))
              (set_legacy_spans
                 (<[id := opentracing.mkSpanRecord spanName
                            (legacy_identity (context.legacy_span c))]> (legacy_spans w)) w).
Proof.
  intros Hreg. unfold TracingService.Start, mbind, Go_bind, legacy.StartSpanFromContext.
  rewrite Hreg. simpl. by destruct (context.legacy_span c) as [[|i]|].
Qed.

(** X8.  The same for the legacy [Start] once a tracer is registered:
    a span started from the returned context is a different span and a
    child of the one returned with it. *)
Theorem TracingService_Start_from_returned_context_nests
    (T : Type) (ts : T) (c : context.Context) (n1 n2 : string)
    (o1 o2 : list trace.SpanStartOption) (w : World) :
  legacy_tracer w = opentracing.RegisteredTracer ->
  ∃ c1 s1 w1 c2 s2 w2 id1,
    TracingService.Start ts c n1 o1 w = Returns (c1, s1) w1 ∧
    TracingService.Start ts c1 n2 o2 w1 = Returns (c2, s2) w2 ∧
    span_identity s1 = Some id1 ∧
    span_identity s2 ≠ Some id1 ∧
    is_recorded w2 s2 ∧
    recorded_parent w2 s2 = Some id1 ∧
    recorded_parent w2 s1 = legacy_identity (context.legacy_span c).
Proof.
  intros Hreg.
  pose proof (legacy_Start_registered T ts c n1 o1 w Hreg) as H1. simpl in H1.
  set (id1 := fresh (dom (legacy_spans w))) in *.
  set (w1 := set_legacy_spans _ w) in H1.
  pose proof (legacy_Start_registered T ts
                (ctx.ContextWithLegacySpan c (opentracing.tracedSpan id1)) n2 o2 w1 Hreg)
    as H2. simpl in H2.
  set (id2 := fresh (dom (legacy_spans w1))) in *.
  assert (id2 ≠ id1) as Hne.
  { intros Heq. apply (is_fresh (dom (legacy_spans w1))). fold id2. rewrite Heq.
    subst w1. simpl. apply elem_of_dom. rewrite lookup_insert_eq. by eexists. }
  do 6 eexists. exists id1. split; [exact H1 |]. split; [exact H2 |].
  split; [reflexivity |]. split; [intros [= Heq]; exact (Hne Heq) |]. simpl.
  rewrite lookup_insert_eq. split; [by eexists |]. split; [reflexivity |].
  rewrite lookup_insert_ne by done. by rewrite lookup_insert_eq.
Qed.

Lemma TracingService_Start_from_returned_context_nests_witness :
  ∃ c1 s1 w1 c2 s2 w2 id1,
    TracingService.Start tt sample.within_span_7 "outer" [] (legacy_world_of initial_world)
      = Returns (c1, s1) w1 ∧
    TracingService.Start tt c1 "inner" [] w1 = Returns (c2, s2) w2 ∧
    span_identity s1 = Some id1 ∧
    span_identity s2 ≠ Some id1 ∧
    is_recorded w2 s2 ∧
    recorded_parent w2 s2 = Some id1 ∧
    recorded_parent w2 s1 = legacy_identity (context.legacy_span sample.within_span_7).
Proof.
  exact (TracingService_Start_from_returned_context_nests unit tt sample.within_span_7
           "outer" "inner" [] [] (legacy_world_of initial_world) eq_refl).
Defined.

(** X9.  With a recording tracer behind [GlobalTracer], the span
    [Start] returns is recorded under the given name with no attributes,
    whatever the start options say, attributes among them.  Pairs set
    through the adapter afterwards are recorded unchanged, in the order
    of the calls, provided they are valid (a key that is not empty, a
    value that has a type), no two of them share a key and they stay
    within the attribute limit of the span. *)
Theorem Start_then_SetAttributes_records_pairs
    (ts : OpentelemetryTracingService.t) (c : context.Context) (spanName : string)
    (opts : list trace.SpanStartOption) (kv1 kv2 : list attribute.KeyValue)
    (w : World) (t : trace.Tracer) :
  GlobalTracer w = Some t -> records_spans w t ->
  Forall (λ p, attribute.Valid p = true) (kv1 ++ kv2) ->
  NoDup (attribute.kvKey <$> (kv1 ++ kv2)) ->
  (length (kv1 ++ kv2) ≤ sdk.AttributeCountLimit)%nat ->
  ∃ c1 s id w1 w2 w3,
    OpentelemetryTracingService.Start ts c spanName opts w = Returns (c1, s) w1 ∧
    span_identity s = Some id ∧
    recorded w1 !! id = Some (mkSdkSpan spanName (active_identity c) [] false) ∧
    Span.SetAttributes s kv1 w1 = Returns tt w2 ∧
    Span.SetAttributes s kv2 w2 = Returns tt w3 ∧
    recorded w3 !! id = Some (mkSdkSpan spanName (active_identity c) (kv1 ++ kv2) false).
Proof.
  intros Ht Hrec Hvalid Hnodup Hlen.
  apply Forall_app in Hvalid as [Hv1 Hv2].
  assert (sdk.record_attributes [] kv1 = kv1) as E1.
  { apply (record_attributes_fresh kv1 []); simpl; [exact Hv1 | |].
    - rewrite fmap_app in Hnodup. by apply NoDup_app in Hnodup as (? & _ & _).
    - rewrite length_app in Hlen. lia. }
  assert (sdk.record_attributes kv1 kv2 = kv1 ++ kv2) as E2
    by (by apply record_attributes_fresh).
  pose proof (Start_recording ts c spanName opts w t Ht Hrec) as H1. simpl in H1.
  set (id := fresh (dom (recorded w))) in *.
  set (w1 := set_recorded _ w) in H1.
  assert (recorded w1 !! id = Some (mkSdkSpan spanName (active_identity c) [] false)) as Hr1
    by (subst w1; simpl; apply lookup_insert_eq).
  pose proof (live_span_SetAttributes id _ kv1 w1 Hr1 eq_refl) as H2.
  cbn [sdk_name sdk_parent sdk_attributes] in H2. rewrite E1 in H2.
  set (w2 := set_recorded _ w1) in H2.
  assert (recorded w2 !! id = Some (mkSdkSpan spanName (active_identity c) kv1 false)) as Hr2
    by (subst w2; simpl; apply lookup_insert_eq).
  pose proof (live_span_SetAttributes id _ kv2 w2 Hr2 eq_refl) as H3.
  cbn [sdk_name sdk_parent sdk_attributes] in H3. rewrite E2 in H3.
  do 2 eexists. exists id. do 3 eexists.
  split; [exact H1 |]. split; [reflexivity |]. split; [exact Hr1 |].
  split; [exact H2 |]. split; [exact H3 |]. simpl. apply lookup_insert_eq.
Qed.

Lemma Start_then_SetAttributes_records_pairs_witness :
  ∃ c1 s id w1 w2 w3,
    OpentelemetryTracingService.Start (sample.running_service sample.prompt_exporter)
      context.Background "op" [trace.WithAttributes [attribute.String "dropped" "yes"]]
      (set_GlobalTracer (Some (trace.sdkTracer sample.running_service_provider
                                 "component-main")) initial_world)
      = Returns (c1, s) w1 ∧
    span_identity s = Some id ∧
    recorded w1 !! id
      = Some (mkSdkSpan "op" (active_identity context.Background) [] false) ∧
    Span.SetAttributes s [attribute.Int "a" 1] w1 = Returns tt w2 ∧
    Span.SetAttributes s [attribute.String "b" "x"] w2 = Returns tt w3 ∧
    recorded w3 !! id
      = Some (mkSdkSpan "op" (active_identity context.Background)
                ([attribute.Int "a" 1] ++ [attribute.String "b" "x"]) false).
Proof.
  apply (Start_then_SetAttributes_records_pairs
           (sample.running_service sample.prompt_exporter) context.Background "op"
           [trace.WithAttributes [attribute.String "dropped" "yes"]]
           [attribute.Int "a" 1] [attribute.String "b" "x"]
           (set_GlobalTracer (Some (trace.sdkTracer sample.running_service_provider
                                      "component-main")) initial_world)
           (trace.sdkTracer sample.running_service_provider "component-main") eq_refl I).
  - repeat constructor.
  - apply (bool_decide_unpack _). vm_compute. exact I.
  - vm_compute. lia.
Defined.

(** What the span does with the other pairs: a repeated key keeps its
    last value only, and a pair with an empty key or without a typed
    value is dropped. *)
Example span_keeps_last_value_per_key :
  sdk.record_attributes [] [attribute.Int "a" 1; attribute.Int "b" 5; attribute.Int "a" 2]
    = [attribute.Int "b" 5; attribute.Int "a" 2] ∧
  sdk.record_attributes [] [attribute.Int "" 1; attribute.mkKeyValue "k" attribute.InvalidValue;
                            attribute.Int "a" 2]
    = [attribute.Int "a" 2].
Proof. split; reflexivity. Qed.

(** ** Initialisation and what follows *)

(** X10.  A disabled service does not undo an earlier registration.
    If a provider is registered when a disabled service is initialised,
    the provider stays registered, [GlobalTracer] becomes the tracer of
    that earlier provider, not an inert one, and every [Start] in the
    resulting state returns a recorded span. *)
Theorem disabled_initialisation_keeps_registered_provider `{jaeger.Lib}
    (ots : OpentelemetryTracingService.t) (w w' : World) (tp0 : tracesdk.TracerProvider) :
  provider w = Some tp0 ->
  OpentelemetryTracingService.enabled ots = false ->
  OpentelemetryTracingService.initOpentelemetryTracer ots w = Returns None w' ->
  provider w' = Some tp0 ∧
  GlobalTracer w' = Some (trace.sdkTracer tp0 "component-main") ∧
  ∀ ts c spanName opts,
    ∃ c' s w2, OpentelemetryTracingService.Start ts c spanName opts w' = Returns (c', s) w2 ∧
               is_recorded w2 s ∧ ¬ is_noop s.
Proof.
  intros Hp Hdis. rewrite initOpentelemetryTracer_unfold, Hdis, Hp.
  destruct (OpentelemetryTracingService.initTracerProvider ots) as [tp|err]; [| discriminate].
  intros [= <-]. simpl. split; [exact Hp |]. split; [reflexivity |].
  intros ts c spanName opts. do 3 eexists.
  split; [by apply (Start_recording ts c spanName opts _ (trace.sdkTracer tp0 "component-main")) |].
  simpl. rewrite lookup_insert_eq. split; [by eexists |]. by intros [sc [=]].
Qed.

Lemma disabled_initialisation_keeps_registered_provider_witness :
  provider (set_GlobalTracer
              (Some (trace.sdkTracer sample.running_service_provider "component-main"))
              (set_provider (Some sample.running_service_provider) initial_world))
    = Some sample.running_service_provider ∧
  GlobalTracer (set_GlobalTracer
                  (Some (trace.sdkTracer sample.running_service_provider "component-main"))
                  (set_provider (Some sample.running_service_provider) initial_world))
    = Some (trace.sdkTracer sample.running_service_provider "component-main") ∧
  ∀ ts c spanName opts,
    ∃ c' s w2,
      OpentelemetryTracingService.Start ts c spanName opts
        (set_GlobalTracer
           (Some (trace.sdkTracer sample.running_service_provider "component-main"))
           (set_provider (Some sample.running_service_provider) initial_world))
        = Returns (c', s) w2 ∧
      is_recorded w2 s ∧ ¬ is_noop s.
Proof.
  exact (@disabled_initialisation_keeps_registered_provider sample.working_jaeger
           (sample.service (sample.cfg "false"))
           (set_provider (Some sample.running_service_provider) initial_world) _
           sample.running_service_provider eq_refl eq_refl eq_refl).
Defined.

(** X11.  Initialisation that succeeds, enabled or not and whatever
    was registered before, leaves a state in which [Start] returns for
    every context and span name.  It records, queues and exports
    nothing, writes no log line and makes no call on a legacy span. *)
Theorem Start_returns_after_initialisation `{jaeger.Lib}
    (ots : OpentelemetryTracingService.t) (w w' : World) :
  OpentelemetryTracingService.initOpentelemetryTracer ots w = Returns None w' ->
  recorded w' = recorded w ∧
  queue w' = queue w ∧
  exported w' = exported w ∧
  log_lines w' = log_lines w ∧
  legacy_calls w' = legacy_calls w ∧
  ∀ ts c spanName opts,
    ∃ sp w2,
      OpentelemetryTracingService.Start ts c spanName opts w'
        = Returns (ctx.ContextWithSpan c sp,
                   Span_Opentelemetry (OpentelemetrySpan.mk (Some sp))) w2.
Proof.
  rewrite initOpentelemetryTracer_unfold.
  destruct (OpentelemetryTracingService.initTracerProvider ots) as [tp|err]; [| discriminate].
  assert (∀ t w1 ts c spanName opts, GlobalTracer w1 = Some t ->
            ∃ sp w2, OpentelemetryTracingService.Start ts c spanName opts w1
                       = Returns (ctx.ContextWithSpan c sp,
                                  Span_Opentelemetry (OpentelemetrySpan.mk (Some sp))) w2)
    as Hstart.
  { intros t w1 ts c spanName opts Ht. rewrite Start_unfold, Ht.
    destruct (tracer_Start_returns t c spanName [] w1) as (sp & w2 & ->). eauto. }
  destruct (OpentelemetryTracingService.enabled ots); intros [= <-]; simpl;
    repeat (split; [reflexivity |]); intros ts c spanName opts; by eapply Hstart.
Qed.

Lemma Start_returns_after_initialisation_witness :
  ∃ sp w2,
    OpentelemetryTracingService.Start (sample.service (sample.cfg "false"))
      sample.within_span_7 "op" []
      (set_GlobalTracer (Some (trace.delegatingTracer "component-main")) initial_world)
      = Returns (ctx.ContextWithSpan sample.within_span_7 sp,
                 Span_Opentelemetry (OpentelemetrySpan.mk (Some sp))) w2.
Proof.
  exact (proj2 (proj2 (proj2 (proj2 (proj2
           (@Start_returns_after_initialisation sample.working_jaeger
              (sample.service (sample.cfg "false")) initial_world _ eq_refl)))))
           (sample.service (sample.cfg "false")) sample.within_span_7 "op" []).
Defined.

(** ** Settings and the exporter *)

(** X12.  [parseSettingsOpentelemetry] writes the [enabled] field and
    nothing else: address, logger, provider and configuration are as
    before.  When it reports an error the service is untouched, so
    [enabled] keeps its earlier value instead of the default, and
    parsing a second time changes nothing any more. *)
Theorem parseSettingsOpentelemetry_writes_enabled_only (ts : OpentelemetryTracingService.t) :
  let r := OpentelemetryTracingService.parseSettingsOpentelemetry ts in
  OpentelemetryTracingService.address (fst r) = OpentelemetryTracingService.address ts ∧
  OpentelemetryTracingService.log (fst r) = OpentelemetryTracingService.log ts ∧
  OpentelemetryTracingService.tracerProvider (fst r)
    = OpentelemetryTracingService.tracerProvider ts ∧
  OpentelemetryTracingService.Cfg (fst r) = OpentelemetryTracingService.Cfg ts ∧
  (snd r ≠ None -> fst r = ts) ∧
  OpentelemetryTracingService.parseSettingsOpentelemetry (fst r) = r.
Proof.
  simpl. destruct (configured_section ts) as [s|] eqn:E.
  - rewrite (parseSettings_present ts s E). simpl. repeat (split; [reflexivity |]).
    split; [done |]. by rewrite (parseSettings_present _ s).
  - destruct (parseSettings_absent ts E) as (err & Herr). rewrite Herr. simpl.
    repeat (split; [reflexivity |]). exact Herr.
Qed.

Lemma parseSettingsOpentelemetry_writes_enabled_only_witness :
  fst (OpentelemetryTracingService.parseSettingsOpentelemetry
         (OpentelemetryTracingService.set_enabled true (sample.service sample.no_tracing_cfg)))
    = OpentelemetryTracingService.set_enabled true (sample.service sample.no_tracing_cfg) ∧
  OpentelemetryTracingService.enabled
    (fst (OpentelemetryTracingService.parseSettingsOpentelemetry
            (OpentelemetryTracingService.set_enabled true
               (sample.service sample.no_tracing_cfg)))) = true.
Proof.
  assert (fst (OpentelemetryTracingService.parseSettingsOpentelemetry
                 (OpentelemetryTracingService.set_enabled true
                    (sample.service sample.no_tracing_cfg)))
          = OpentelemetryTracingService.set_enabled true
              (sample.service sample.no_tracing_cfg)) as Heq.
  { apply (proj1 (proj2 (proj2 (proj2 (proj2
             (parseSettingsOpentelemetry_writes_enabled_only
                (OpentelemetryTracingService.set_enabled true
                   (sample.service sample.no_tracing_cfg)))))))).
    discriminate. }
  split; [exact Heq | by rewrite Heq].
Defined.

(** X13.  The configuration does not reach the exporter.  Two
    services that differ only in their configuration ask [jaeger.New]
    for the same endpoint after their settings are parsed, the address
    they were built with, and so build the same provider or fail with
    the same error. *)
Theorem configuration_does_not_reach_exporter `{jaeger.Lib}
    (e : bool) (a : string) (l : log.Logger) (p : option tracesdk.TracerProvider)
    (cfg1 cfg2 : setting.Cfg) :
  let parsed cfg :=
    fst (OpentelemetryTracingService.parseSettingsOpentelemetry
           (OpentelemetryTracingService.mk e a l p cfg)) in
  OpentelemetryTracingService.address (parsed cfg1) = a ∧
  OpentelemetryTracingService.initTracerProvider (parsed cfg1)
    = OpentelemetryTracingService.initTracerProvider (parsed cfg2) ∧
  OpentelemetryTracingService.initTracerProvider (parsed cfg1)
    = match jaeger.New (jaeger.WithCollectorEndpoint [jaeger.WithEndpoint a]) with
      | inl exp =>
          inl (tracesdk.mkTracerProvider [tracesdk.BatchSpanProcessor exp]
                 (resource.mkResource semconv.SchemaURL
                    [attribute.String "service.name" "grafana";
                     attribute.String "environment" "production"]))
      | inr err => inr err
      end.
Proof.
  simpl. unfold OpentelemetryTracingService.initTracerProvider.
  rewrite !parseSettings_address. simpl. split; [reflexivity |]. split; [reflexivity |].
  by destruct (jaeger.New _).
Qed.

(** ** The shutdown task, in every case *)

Lemma flush_frame (w : World) :
  log_lines (sdk.flush w) = log_lines w ∧
  legacy_calls (sdk.flush w) = legacy_calls w ∧
  legacy_spans (sdk.flush w) = legacy_spans w.
Proof. unfold sdk.flush. by destruct (queue w). Qed.

Lemma shutdown_processors_frame (sps : list tracesdk.SpanProcessor) (c : context.Context) :
  ∀ w r w',
    sdk.shutdown_processors sps c w = Returns r w' ->
    log_lines w' = log_lines w ∧
    legacy_calls w' = legacy_calls w ∧
    legacy_spans w' = legacy_spans w.
Proof.
  induction sps as [|[ex] rest IH]; intros w r w'; simpl.
  - by intros [= _ <-].
  - assert (∀ r1 w1, sdk.processor_Shutdown (tracesdk.BatchSpanProcessor ex) c w
                       = Returns r1 w1 ->
                     log_lines w1 = log_lines w ∧ legacy_calls w1 = legacy_calls w ∧
                     legacy_spans w1 = legacy_spans w) as Hproc.
    { intros r1 w1. unfold sdk.processor_Shutdown.
      destruct (flush_frame w) as (F1 & F2 & F3).
      destruct (jaeger.ack ex) as [d|], (context.done c) as [[t err]|];
        try destruct (clock w + Z.max 0 d <? t); try discriminate;
        intros [= _ <-]; simpl; auto. }
    assert (∀ r w', (sdk.processor_Shutdown (tracesdk.BatchSpanProcessor ex) c ≫= λ r0,
                       match r0 with
                       | Some e => mret (Some e)
                       | None => sdk.shutdown_processors rest c
                       end) w = Returns r w' ->
                    log_lines w' = log_lines w ∧ legacy_calls w' = legacy_calls w ∧
                    legacy_spans w' = legacy_spans w) as Hstep.
    { intros r2 w2. unfold mbind, Go_bind.
      destruct (sdk.processor_Shutdown _ c w) as [r1 w1| |] eqn:E1; try discriminate.
      destruct (Hproc r1 w1 eq_refl) as (P1 & P2 & P3).
      destruct r1 as [e1|].
      - intros [= _ <-]. auto.
      - intros H2. destruct (IH w1 r2 w2 H2) as (Q1 & Q2 & Q3).
        repeat split; congruence. }
    destruct (context.done c) as [[t err]|]; [| apply Hstep].
    destruct (t <=? clock w); [by intros [= _ <-] | apply Hstep].
Qed.

(** X14.  What [Run] does depends on two things only.  On a context
    that is never cancelled it blocks, also when the service holds no
    provider.  On a cancelled context it panics when the service holds
    no provider, the call going through the nil pointer, and returns
    when it holds one. *)
Theorem Run_outcome_by_case (ots : OpentelemetryTracingService.t) (c : context.Context)
    (w : World) :
  match context.done c, OpentelemetryTracingService.tracerProvider ots with
  | None, _ => OpentelemetryTracingService.Run ots c w = Blocks
  | Some _, None => OpentelemetryTracingService.Run ots c w = Panics nil_dereference
  | Some _, Some tp =>
      ∃ r w', OpentelemetryTracingService.Run ots c w = Returns r w' ∧
              last (shutdowns w') ≫= (λ k, Some (sd_provider k)) = Some tp
  end.
Proof.
  destruct (context.done c) as [[T e]|] eqn:Hd.
  - destruct (OpentelemetryTracingService.tracerProvider ots) as [tp|] eqn:Htp.
    + rewrite (Run_unfold ots tp c T e w Htp Hd).
      destruct (Shutdown_returns tp (Z.max (clock w) T) (at_cancellation T w))
        as (r & w' & Hrun & _ & _ & _ & Hsd & _ & _).
      exists r, w'. split; [exact Hrun |]. by rewrite Hsd, last_snoc.
    + unfold OpentelemetryTracingService.Run, mbind, Go_bind, ctx.await_Done.
      by rewrite Hd, Htp.
  - unfold OpentelemetryTracingService.Run, mbind, Go_bind, ctx.await_Done.
    by rewrite Hd.
Qed.

(** X15.  [Run] shuts the provider down and touches nothing else of
    the tracing state: when it returns, [GlobalTracer], the registered
    provider and the recorded spans are as before, the log has grown by
    the one line "Closing tracing", and no legacy span has been called.
    In particular [Start] still returns after the shutdown if it did
    before. *)
Theorem Run_leaves_GlobalTracer_in_place
    (ots : OpentelemetryTracingService.t) (c : context.Context) (r : option error)
    (w w' : World) :
  OpentelemetryTracingService.Run ots c w = Returns r w' ->
  GlobalTracer w' = GlobalTracer w ∧
  provider w' = provider w ∧
  recorded w' = recorded w ∧
  log_lines w' = log_lines w ++ ["Closing tracing"] ∧
  legacy_calls w' = legacy_calls w ∧
  (∀ t ts c2 spanName opts, GlobalTracer w = Some t ->
     ∃ sp w2,
       OpentelemetryTracingService.Start ts c2 spanName opts w'
         = Returns (ctx.ContextWithSpan c2 sp,
                    Span_Opentelemetry (OpentelemetrySpan.mk (Some sp))) w2).
Proof.
  intros Hrun.
  destruct (context.done c) as [[T e]|] eqn:Hd; cycle 1.
  { unfold OpentelemetryTracingService.Run, mbind, Go_bind, ctx.await_Done in Hrun.
    by rewrite Hd in Hrun. }
  destruct (OpentelemetryTracingService.tracerProvider ots) as [tp|] eqn:Htp; cycle 1.
  { unfold OpentelemetryTracingService.Run, mbind, Go_bind, ctx.await_Done in Hrun.
    rewrite Hd, Htp in Hrun. discriminate. }
  rewrite (Run_unfold ots tp c T e w Htp Hd) in Hrun.
  destruct (Shutdown_returns tp (Z.max (clock w) T) (at_cancellation T w))
    as (r' & w2 & Hs & Ht & Hp & Hr & _ & _ & _).
  pose proof Hrun as Hframe. unfold sdk.Shutdown in Hframe.
  apply shutdown_processors_frame in Hframe as (Hl & Hc & _).
  rewrite Hs in Hrun. injection Hrun as <- <-. simpl in *.
  repeat (split; [assumption |]).
  intros t ts c2 spanName opts Hg. rewrite Start_unfold, Ht, Hg.
  destruct (tracer_Start_returns t c2 spanName [] w2) as (sp & w3 & ->). eauto.
Qed.

Lemma Run_leaves_GlobalTracer_in_place_witness :
  ∃ r w',
    OpentelemetryTracingService.Run (sample.running_service sample.prompt_exporter)
      sample.cancelled
      (set_GlobalTracer (Some (trace.delegatingTracer "component-main")) initial_world)
      = Returns r w' ∧
    GlobalTracer w' = Some (trace.delegatingTracer "component-main") ∧
    log_lines w' = ["Closing tracing"].
Proof.
  do 2 eexists. split; [reflexivity |].
  pose proof (Run_leaves_GlobalTracer_in_place
                (sample.running_service sample.prompt_exporter) sample.cancelled _
                (set_GlobalTracer (Some (trace.delegatingTracer "component-main"))
                   initial_world) _ eq_refl) as (Hg & _ & _ & Hl & _).
  split; [exact Hg | exact Hl].
Defined.
